(** * dexgo: a shallow embedding of [dexcom.go]

    The Go package is a client of the Dexcom "share" web service.  This file
    embeds its data types, the timestamp decoder [convertTimestamp], the
    three requests and the public method [GetReadings], and proves the
    properties stated about them.

    Conventions of the embedding.
    - A Go [string] is a sequence of bytes: [String.string].
    - A Go [int] is modelled as a [Z]; the range of the 64-bit [int] is
      written out where the code depends on it ([strconv.Atoi]).
    - A Go [error] is modelled by its message.
    - A run-time panic (index out of range, nil dereference) is an explicit
      outcome, [Panic], so that "does not panic" is a statement to prove. *)

From Stdlib Require Import ZArith List String Ascii Bool Lia.
Import ListNotations.

Local Open Scope Z_scope.

(** ** Errors and outcomes *)

Definition error : Type := string.

(** [fmt.Errorf(prefix + "%s", arg)]. *)
Definition Errorf (prefix arg : string) : error := (prefix ++ arg)%string.

Inductive Outcome (A : Type) : Type :=
| Ret (a : A)
| Panic (msg : string).
Arguments Ret {A} a.
Arguments Panic {A} msg.

Definition panicked {A : Type} (o : Outcome A) : bool :=
  match o with
  | Ret _ => false
  | Panic _ => true
  end.

(** ** The package constants *)

Definition dexcomBaseUrl : string :=
  "https://share2.dexcom.com/ShareWebServices/Services".
Definition dexcomLoginEndpoint : string := "General/LoginPublisherAccountById".
Definition dexcomAuthEndpoint : string := "General/AuthenticatePublisherAccount".
Definition dexcomGetLatestEndpoint : string :=
  "Publisher/ReadPublisherLatestGlucoseValues".
Definition dexcomApplicationId : string := "d89443d2-327c-4a6f-89e5-496bbb0317db".

(** ** [time.Time]

    An instant, as Go keeps it for a time built by [time.Unix]: seconds since
    the Unix epoch and nanoseconds within the second. *)

Record Time : Type := mkTime { unixSec : Z; nsec : Z }.

(** [time.Unix(sec, nsec)]: the nanoseconds are brought into [0, 1e9).  Go's
    [/] truncates toward zero: [Z.quot]. *)
Definition Unix (sec nsec : Z) : Time :=
  if (nsec <? 0) || (1000000000 <=? nsec) then
    let n := Z.quot nsec 1000000000 in
    let sec := sec + n in
    let nsec := nsec - n * 1000000000 in
    if nsec <? 0 then mkTime (sec - 1) (nsec + 1000000000) else mkTime sec nsec
  else mkTime sec nsec.

(** [time.UnixMilli(msec)] is [Unix(msec/1e3, (msec%1e3)*1e6)]. *)
Definition UnixMilli (msec : Z) : Time :=
  Unix (Z.quot msec 1000) (Z.rem msec 1000 * 1000000).

(** The method [t.UnixMilli()]: [t.unixSec()*1e3 + t.nsec()/1e6]. *)
Definition Time_UnixMilli (t : Time) : Z :=
  unixSec t * 1000 + Z.quot (nsec t) 1000000.

(** The UTC civil date and time of day as an instant, for years from 1970 on:
    what [time.Date(y, m, d, hh, mm, ss, 0, time.UTC)] denotes.  It is used
    only to name the instant 2021-01-01T00:00:00Z. *)
Definition isLeap (y : Z) : bool :=
  (y mod 4 =? 0) && (negb (y mod 100 =? 0) || (y mod 400 =? 0)).

Definition leapsThrough (y : Z) : Z := y / 4 - y / 100 + y / 400.

Definition daysBefore (month : Z) : Z :=
  nth (Z.to_nat (month - 1))
      [0; 31; 59; 90; 120; 151; 181; 212; 243; 273; 304; 334] 0.

Definition daysSinceEpoch (y month d : Z) : Z :=
  365 * (y - 1970) + (leapsThrough (y - 1) - leapsThrough 1969)
  + daysBefore month
  + (if isLeap y && (3 <=? month) then 1 else 0)
  + (d - 1).

Definition DateUTC (y month d hh mm ss : Z) : Time :=
  mkTime (daysSinceEpoch y month d * 86400 + hh * 3600 + mm * 60 + ss) 0.

(** ** The timestamp pattern

    [timestampRegex] is the word Date, an escaped opening parenthesis, the
    capture group (the digit class, starred) and an escaped closing
    parenthesis.  A match is the five bytes of Date and the parenthesis, a
    run of ASCII digits (the capture group, possibly empty) and the closing
    parenthesis.  The pattern is not anchored.  Go's digit class is the ASCII
    class [0-9], and every byte of the pattern is ASCII, so matching bytes is
    matching runes. *)

Definition isDigit (c : ascii) : bool :=
  let n := nat_of_ascii c in (48 <=? n)%nat && (n <=? 57)%nat.

Definition digitVal (c : ascii) : Z := Z.of_nat (nat_of_ascii c) - 48.

Fixpoint allDigits (s : string) : bool :=
  match s with
  | EmptyString => true
  | String c r => isDigit c && allDigits r
  end.

(** The longest run of digits at the head of [s], and what follows it. *)
Fixpoint spanDigits (s : string) : string * string :=
  match s with
  | EmptyString => (EmptyString, EmptyString)
  | String c r =>
      if isDigit c
      then let (ds, rest) := spanDigits r in (String c ds, rest)
      else (EmptyString, s)
  end.

Fixpoint stripPrefix (p s : string) : option string :=
  match p with
  | EmptyString => Some s
  | String a p' =>
      match s with
      | EmptyString => None
      | String b s' => if Ascii.eqb a b then stripPrefix p' s' else None
      end
  end.

(** A match of the pattern that starts at the head of [s]: the matched text
    and the capture group.  The starred digit class is greedy; giving digits
    back cannot help, since the byte that must follow is the closing
    parenthesis, which is no digit, so the longest run is the only
    candidate. *)
Definition matchAt (s : string) : option (list string) :=
  match stripPrefix "Date(" s with
  | None => None
  | Some r =>
      let (ds, rest) := spanDigits r in
      match rest with
      | String ")" _ => Some [("Date(" ++ ds ++ ")")%string; ds]
      | _ => None
      end
  end.

(** [timestampRegex.FindStringSubmatch(s)]: the leftmost match, as the slice
    [whole match; group 1], or the nil slice when there is none. *)
Fixpoint FindStringSubmatch (s : string) : list string :=
  match matchAt s with
  | Some m => m
  | None =>
      match s with
      | EmptyString => []
      | String _ r => FindStringSubmatch r
      end
  end.

(** ** [strconv.Atoi]

    An optional sign, then at least one decimal digit and nothing else; the
    value must fit the 64-bit [int].  The code discards Atoi's own error, so
    the model returns [None] for both the syntax and the range error. *)

Definition maxInt : Z := 2 ^ 63 - 1.
Definition minInt : Z := - 2 ^ 63.

Fixpoint parseDigits (s : string) (acc : Z) : option Z :=
  match s with
  | EmptyString => Some acc
  | String c r =>
      if isDigit c then parseDigits r (acc * 10 + digitVal c) else None
  end.

Definition Atoi (s : string) : option Z :=
  let '(neg, body) :=
    match s with
    | String "-" r => (true, r)
    | String "+" r => (false, r)
    | _ => (false, s)
    end in
  match body with
  | EmptyString => None
  | _ =>
      match parseDigits body 0 with
      | None => None
      | Some n =>
          let v := if neg then - n else n in
          if (minInt <=? v) && (v <=? maxInt) then Some v else None
      end
  end.

(** ** [convertTimestamp] *)

(** [xs[i]] on a slice: a panic when [i] is out of range. *)
Definition index {A : Type} (xs : list A) (i : nat) : Outcome A :=
  match nth_error xs i with
  | Some x => Ret x
  | None => Panic "index out of range"
  end.

Definition convertTimestamp (wt : string) : Outcome (Time + error) :=
  let matches := FindStringSubmatch wt in
  if negb (Nat.eqb (List.length matches) 2) then
    Ret (inr (Errorf "failed to parse timestamp: " wt))
  else
    match index matches 1 with
    | Panic msg => Panic msg
    | Ret m1 =>
        match Atoi m1 with
        | None => Ret (inr (Errorf "invalid timestamp: " m1))
        | Some timeMillis => Ret (inl (UnixMilli timeMillis))
        end
    end.

(** ** The data types of the package

    Field names are the source's, with a prefix where two structs share a
    name ([Time], [Value], [Trend], [Password], [ApplicationId]). *)

Record GlucoseReading : Type := mkGlucoseReading {
  readingTime : Time;
  readingValue : Z;
  readingTrend : string
}.

(** [RawReading]: the JSON names are WT, Trend and Value. *)
Record RawReading : Type := mkRawReading {
  rawTime : string;
  rawTrend : string;
  rawValue : Z
}.

Module VerifyPayload.
Record t : Type := mk {
  AccountName : string;
  Password : string;
  ApplicationId : string
}.
End VerifyPayload.

Module AuthPayload.
Record t : Type := mk {
  AccountId : string;
  Password : string;
  ApplicationId : string
}.
End AuthPayload.

Module GetReadingsPayload.
Record t : Type := mk {
  SessionId : string;
  Minutes : Z;
  MaxCount : Z
}.
End GetReadingsPayload.

(** The [payload any] argument of [request]: one of the three structs. *)
Inductive Payload : Type :=
| PVerify (p : VerifyPayload.t)
| PAuth (p : AuthPayload.t)
| PGet (p : GetReadingsPayload.t).

(** [Dexcom]: the two pointer fields are nil ([None]) until they are set. *)
Record Dexcom : Type := mkDexcom {
  username : string;
  password : string;
  accountId : option string;
  sessionId : option string
}.

Definition New (username password : string) : Dexcom :=
  mkDexcom username password None None.

(** ** The transport

    [http.Post] is the one effect of the package.  A POST is recorded with
    its URL and payload; what comes back is either an error of the transport
    ([http.Post] or [io.ReadAll] failed) or a body.  A body is kept at the
    level [json.Unmarshal] looks at it: a bare JSON string, an array of
    reading records, [null], or anything else, for which [json.Unmarshal]
    reports the given error whatever the target. *)

Record Call : Type := mkCall { callUrl : string; callPayload : Payload }.

Inductive Body : Type :=
| JString (s : string)
| JReadings (rs : list RawReading)
| JNull
| JOther (err : error).

Inductive Response : Type :=
| Failed (err : error)
| Replied (b : Body).

Definition Entry : Type := (Call * Response)%type.

(** The network: the response to a call, given all the calls made so far. *)
Definition Net : Type := list Entry -> Call -> Response.

(** The Go type behind the [result] pointer of [request]. *)
Inductive Target : Type := TString | TReadings.

Definition Decoded (t : Target) : Type :=
  match t with
  | TString => string
  | TReadings => list RawReading
  end.

(** [json.Unmarshal(body, result)], with [result] pointing at a zero value.
    [null] leaves the zero value and is no error. *)
Definition Unmarshal (t : Target) (b : Body) : Decoded t + error :=
  match t return Decoded t + error with
  | TString =>
      match b with
      | JString s => inl s
      | JNull => inl EmptyString
      | JReadings _ =>
          inr "json: cannot unmarshal array into Go value of type string"%string
      | JOther err => inr err
      end
  | TReadings =>
      match b with
      | JReadings rs => inl rs
      | JNull => inl []
      | JString _ =>
          inr "json: cannot unmarshal string into Go value of type []dexgo.RawReading"%string
      | JOther err => inr err
      end
  end.

(** [url.JoinPath(base, elem)] for a base without a trailing slash and an
    element without dot segments, which is all the package passes. *)
Definition JoinPath (base elem : string) : string :=
  (base ++ "/" ++ elem)%string.

(** ** The state of a run and its monad

    A method on [*Dexcom] reads and writes the client and calls the network:
    the state is the client together with the log of the calls made, oldest
    first.  A panic stops the computation and keeps the state it had. *)

Record State : Type := mkState { dex : Dexcom; log : list Entry }.

Definition M (A : Type) : Type := State -> Outcome A * State.

Definition ret {A : Type} (a : A) : M A := fun st => (Ret a, st).

Definition bind {A B : Type} (m : M A) (k : A -> M B) : M B :=
  fun st =>
    match m st with
    | (Ret a, st') => k a st'
    | (Panic msg, st') => (Panic msg, st')
    end.

Notation "x <- m ;; k" := (bind m (fun x => k))
  (at level 61, m at next level, right associativity).
Notation "m ;;; k" := (bind m (fun _ => k))
  (at level 61, right associativity).

Definition getDex : M Dexcom := fun st => (Ret (dex st), st).

Definition setAccountId (a : string) : M unit :=
  fun st =>
    let d := dex st in
    (Ret tt, mkState (mkDexcom (username d) (password d) (Some a) (sessionId d))
                     (log st)).

Definition setSessionId (s : string) : M unit :=
  fun st =>
    let d := dex st in
    (Ret tt, mkState (mkDexcom (username d) (password d) (accountId d) (Some s))
                     (log st)).

(** [*p] on a [*string]: a panic when [p] is nil. *)
Definition deref (p : option string) : M string :=
  fun st =>
    match p with
    | Some v => (Ret v, st)
    | None => (Panic "invalid memory address or nil pointer dereference", st)
    end.

Definition lift {A : Type} (o : Outcome A) : M A := fun st => (o, st).

(** ** The requests *)

Section Requests.

Variable net : Net.

(** [request]: [json.Marshal] cannot fail on the three payload structs
    (strings and ints), so its error branch is dead. *)
Definition request (endPoint : string) (payload : Payload) (t : Target)
  : M (Decoded t + error) :=
  fun st =>
    let c := mkCall (JoinPath dexcomBaseUrl endPoint) payload in
    let r := net (log st) c in
    let st' := mkState (dex st) (log st ++ [(c, r)]) in
    match r with
    | Failed err => (Ret (inr err), st')
    | Replied b => (Ret (Unmarshal t b), st')
    end.

(** The methods return Go's [error]: [None] is nil. *)
Definition fetchAccountId : M (option error) :=
  d <- getDex ;;
  let payload :=
    PVerify (VerifyPayload.mk (username d) (password d) dexcomApplicationId) in
  r <- request dexcomAuthEndpoint payload TString ;;
  match r with
  | inr err => ret (Some err)
  | inl accountId => setAccountId accountId ;;; ret None
  end.

Definition auth : M (option error) :=
  d <- getDex ;;
  a <- deref (accountId d) ;;
  let payload := PAuth (AuthPayload.mk a (password d) dexcomApplicationId) in
  r <- request dexcomLoginEndpoint payload TString ;;
  match r with
  | inr err => ret (Some err)
  | inl sessionId => setSessionId sessionId ;;; ret None
  end.

(** The loop of [GetReadings] over [rawValues], with [readings] the slice
    built so far. *)
Fixpoint convertAll (rawValues : list RawReading)
    (readings : list GlucoseReading)
  : Outcome (list GlucoseReading + error) :=
  match rawValues with
  | [] => Ret (inl readings)
  | rv :: rest =>
      match convertTimestamp (rawTime rv) with
      | Panic msg => Panic msg
      | Ret (inr err) => Ret (inr err)
      | Ret (inl timestamp) =>
          let r := mkGlucoseReading timestamp (rawValue rv) (rawTrend rv) in
          convertAll rest (readings ++ [r])
      end
  end.

(** The first statement of [GetReadings], the block under
    [if d.sessionId == nil]: the login handshake.  The errors that
    [fetchAccountId] and [auth] return are dropped, as in the source. *)
Definition handshake : M unit :=
  d <- getDex ;;
  match sessionId d with
  | None =>
      (match accountId d with
       | None => fetchAccountId ;;; ret tt
       | Some _ => ret tt
       end) ;;;
      auth ;;; ret tt
  | Some _ => ret tt
  end.

(** [GetReadings] returns [(readings, nil)] or [(nil, err)]: a sum. *)
Definition GetReadings (minutes numReadings : Z)
  : M (list GlucoseReading + error) :=
  handshake ;;;
  d <- getDex ;;
  sid <- deref (sessionId d) ;;
  let payload := PGet (GetReadingsPayload.mk sid minutes numReadings) in
  r <- request dexcomGetLatestEndpoint payload TReadings ;;
  match r with
  | inr err => ret (inr err)
  | inl rawValues => lift (convertAll rawValues [])
  end.

End Requests.

(** ** Vocabulary of the properties *)

(** The value of a run of decimal digits. *)
Fixpoint decimalValueFrom (s : string) (acc : Z) : Z :=
  match s with
  | EmptyString => acc
  | String c r => decimalValueFrom r (acc * 10 + digitVal c)
  end.

Definition decimalValue (s : string) : Z := decimalValueFrom s 0.

(** The instant [n] milliseconds after the Unix epoch (before it, for a
    negative [n]): whole seconds, and the remaining milliseconds as
    nanoseconds. *)
Definition instantOfMillis (n : Z) : Time :=
  mkTime (n / 1000) (n mod 1000 * 1000000).

(** What the pattern denotes: an occurrence in [s] is a split of [s] around
    the wrapper and a run of digits.  [FindStringSubmatch] is to find the
    occurrence with the shortest text before it. *)
Definition occurrence (s pre ds post : string) : Prop :=
  s = (pre ++ "Date(" ++ ds ++ ")" ++ post)%string /\ allDigits ds = true.

(** An error message mentions a text when the text occurs in it. *)
Definition mentions (msg text : string) : Prop :=
  exists pre post, msg = (pre ++ text ++ post)%string.

(** Modelled from the spec: the encoder of the round-trip property, which
    the package does not have.  [Itoa] prints a non-negative [int] in base
    10 the way [strconv.Itoa] does, least significant digit first into a
    buffer that 20 digits cannot overflow for a 64-bit value, and [wrapDate]
    puts the vendor's wrapper around it. *)
Definition digitChar (d : Z) : ascii := ascii_of_nat (48 + Z.to_nat d).

Fixpoint formatDigits (fuel : nat) (u : Z) (acc : string) : string :=
  match fuel with
  | O => acc
  | S fuel' =>
      if u <? 10 then String (digitChar u) acc
      else formatDigits fuel' (u / 10) (String (digitChar (u mod 10)) acc)
  end.

Definition Itoa (n : Z) : string := formatDigits 20 n EmptyString.

Definition wrapDate (n : Z) : string := ("Date(" ++ Itoa n ++ ")")%string.

(** The POST to an endpoint of the service. *)
Definition postTo (endPoint : string) (payload : Payload) : Call :=
  mkCall (JoinPath dexcomBaseUrl endPoint) payload.

(** The three calls of the package, by the data they carry. *)
Definition accountCall (d : Dexcom) : Call :=
  postTo dexcomAuthEndpoint
    (PVerify (VerifyPayload.mk (username d) (password d) dexcomApplicationId)).

Definition sessionCall (d : Dexcom) (a : string) : Call :=
  postTo dexcomLoginEndpoint
    (PAuth (AuthPayload.mk a (password d) dexcomApplicationId)).

Definition dataCall (sid : string) (minutes numReadings : Z) : Call :=
  postTo dexcomGetLatestEndpoint
    (PGet (GetReadingsPayload.mk sid minutes numReadings)).

(** The client after [d.accountId = &a] and after [d.sessionId = &s]. *)
Definition withAccountId (d : Dexcom) (a : string) : Dexcom :=
  mkDexcom (username d) (password d) (Some a) (sessionId d).

Definition withSessionId (d : Dexcom) (s : string) : Dexcom :=
  mkDexcom (username d) (password d) (accountId d) (Some s).

Definition nilDeref : string :=
  "invalid memory address or nil pointer dereference".

(** The calls of a log, oldest first. *)
Definition calls (st : State) : list Call := map fst (log st).

Definition isCallTo (endPoint : string) (c : Call) : bool :=
  String.eqb (callUrl c) (JoinPath dexcomBaseUrl endPoint).

(** What a login call yields: the string [json.Unmarshal] stores, or the
    error [request] returns. *)
Definition stringReply (r : Response) : string + error :=
  match r with
  | Failed err => inr err
  | Replied b => Unmarshal TString b
  end.

Definition readingsReply (r : Response) : list RawReading + error :=
  match r with
  | Failed err => inr err
  | Replied b => Unmarshal TReadings b
  end.

(** A request succeeds when [request] returns nil for it. *)
Definition succeeds (c : Call) (r : Response) : bool :=
  match callPayload c with
  | PGet _ => match readingsReply r with inl _ => true | inr _ => false end
  | _ => match stringReply r with inl _ => true | inr _ => false end
  end.

Definition AllSucceed (net : Net) : Prop :=
  forall l c, succeeds c (net l c) = true.

(** The tokens that the calls to an endpoint resolved, oldest first: one
    for each call to it that [request] decoded into a string. *)
Definition resolvedBy (endPoint : string) (e : Entry) : option string :=
  if isCallTo endPoint (fst e)
  then match stringReply (snd e) with inl s => Some s | inr _ => None end
  else None.

Fixpoint resolutions (endPoint : string) (l : list Entry) : list string :=
  match l with
  | [] => []
  | e :: r =>
      match resolvedBy endPoint e with
      | Some s => s :: resolutions endPoint r
      | None => resolutions endPoint r
      end
  end.

Definition olist {A : Type} (o : option A) : list A :=
  match o with
  | Some a => [a]
  | None => []
  end.

(** The states of a client instance: it is made by [New], and the one
    exported method is [GetReadings], against any network.  A call that
    panics still leaves a state (the caller may recover). *)
Inductive step : State -> State -> Prop :=
| step_GetReadings (net : Net) (minutes numReadings : Z) (st : State) :
    step st (snd (GetReadings net minutes numReadings st)).

Inductive reachable : State -> Prop :=
| reach_New (u p : string) : reachable (mkState (New u p) [])
| reach_step (st st' : State) : reachable st -> step st st' -> reachable st'.

(** Two networks to run the client against: one that answers every call
    well, and one that answers the n-th call with the n-th response of a
    script and refuses the connection afterwards. *)
Definition sampleRaw : list RawReading :=
  [mkRawReading "Date(1609459200000)" "Flat" 120].

Definition okNet : Net :=
  fun _ c =>
    match callPayload c with
    | PVerify _ => Replied (JString "account-1")
    | PAuth _ => Replied (JString "session-1")
    | PGet _ => Replied (JReadings sampleRaw)
    end.

Definition scriptedNet (script : list Response) : Net :=
  fun l _ => nth (List.length l) script (Failed "connection refused"%string).

(** A run with a partial failure: the account id is resolved, the session
    request times out, and the later requests are answered. *)
Definition flakyNet : Net :=
  scriptedNet [Replied (JString "account-1"); Failed "timeout"%string;
               Replied (JString "session-1"); Replied (JReadings sampleRaw)].

Definition freshState : State := mkState (New "user" "secret") [].

Definition afterPartialFailure : State :=
  snd (GetReadings flakyNet 10 1 freshState).

(** Login-related calls go to one of the two login endpoints; the data
    fetch goes to the third. *)
Definition isLoginCall (c : Call) : bool :=
  isCallTo dexcomAuthEndpoint c || isCallTo dexcomLoginEndpoint c.

Definition isDataCall (c : Call) : bool := isCallTo dexcomGetLatestEndpoint c.

(** A raw record and the reading made of it: value and trend copied, time
    decoded from WT. *)
Definition readingOf (rv : RawReading) (r : GlucoseReading) : Prop :=
  readingValue r = rawValue rv /\
  readingTrend r = rawTrend rv /\
  convertTimestamp (rawTime rv) = Ret (inl (readingTime r)).

Definition decodable (rv : RawReading) : Prop :=
  exists t, convertTimestamp (rawTime rv) = Ret (inl t).

(** The requests a client can make, one at a time: the account-id request
    when neither id is set, the session request when only the account id is
    set, the data request when the session id is set.  A login request
    stores the token when the reply decodes into a string. *)
Inductive request_step : State -> State -> Prop :=
| rs_account (st : State) (r : Response) :
    accountId (dex st) = None -> sessionId (dex st) = None ->
    request_step st
      (mkState (match stringReply r with
                | inl a => withAccountId (dex st) a
                | inr _ => dex st
                end)
               (log st ++ [(accountCall (dex st), r)]))
| rs_session (st : State) (a : string) (r : Response) :
    accountId (dex st) = Some a -> sessionId (dex st) = None ->
    request_step st
      (mkState (match stringReply r with
                | inl s => withSessionId (dex st) s
                | inr _ => dex st
                end)
               (log st ++ [(sessionCall (dex st) a, r)]))
| rs_data (st : State) (sid : string) (minutes numReadings : Z) (r : Response) :
    sessionId (dex st) = Some sid ->
    request_step st
      (mkState (dex st) (log st ++ [(dataCall sid minutes numReadings, r)])).

Inductive request_steps : State -> State -> Prop :=
| steps_nil (st : State) : request_steps st st
| steps_cons (st1 st2 st3 : State) :
    request_step st1 st2 -> request_steps st2 st3 -> request_steps st1 st3.

(** The order of the calls in a log: before a session request an account
    id was resolved, and before a data request a session id was. *)
Definition ordered (l : list Entry) : Prop :=
  forall (l1 : list Entry) (e : Entry) (l2 : list Entry),
    l = (l1 ++ e :: l2)%list ->
    (isCallTo dexcomLoginEndpoint (fst e) = true ->
     resolutions dexcomAuthEndpoint l1 <> []) /\
    (isCallTo dexcomGetLatestEndpoint (fst e) = true ->
     resolutions dexcomLoginEndpoint l1 <> []).

(** The invariant of a client and its log: each id is set exactly when one
    call resolved it, to the token of that call, and the log is ordered. *)
Definition consistent (st : State) : Prop :=
  resolutions dexcomAuthEndpoint (log st) = olist (accountId (dex st)) /\
  resolutions dexcomLoginEndpoint (log st) = olist (sessionId (dex st)) /\
  (sessionId (dex st) <> None -> accountId (dex st) <> None) /\
  ordered (log st).

(** ** Vocabulary of the further properties *)

(** A call that a client in state [d] has reason to have sent: the
    account-id request with its credentials, the session request with its
    cached account id, or a data request with its cached session id. *)
Definition sentBy (d : Dexcom) (c : Call) : Prop :=
  c = accountCall d \/
  (exists a, accountId d = Some a /\ c = sessionCall d a) \/
  (exists sid minutes numReadings,
      sessionId d = Some sid /\ c = dataCall sid minutes numReadings).


(** A network on which the login requests are answered with null. *)
Definition nullNet : Net :=
  fun _ c =>
    match callPayload c with
    | PGet _ => Replied (JReadings sampleRaw)
    | _ => Replied JNull
    end.

(** A response list whose second record has no wrapper. *)
Definition brokenRaw : list RawReading :=
  [mkRawReading "Date(1609459200000)" "Flat" 120;
   mkRawReading "garbage" "Flat" 121;
   mkRawReading "Date(1609459500000)" "Flat" 122].

(** * Properties *)

Example convertTimestamp_2021 :
  convertTimestamp "Date(1609459200000)" = Ret (inl (DateUTC 2021 1 1 0 0 0)).
Proof. reflexivity. Qed.

(** ** Facts about the pattern matcher *)

Lemma matchAt_length (s : string) (m : list string) :
  matchAt s = Some m -> List.length m = 2%nat.
Proof.
  unfold matchAt. destruct (stripPrefix "Date(" s) as [r|]; [|discriminate].
  destruct (spanDigits r) as [ds rest].
  destruct rest as [|c rest]; [discriminate|].
  destruct (Ascii.eqb c ")") eqn:E.
  - apply Ascii.eqb_eq in E. subst c. intros H. inversion H. reflexivity.
  - intros H. destruct c as [[] [] [] [] [] [] [] []]; try discriminate H.
    discriminate E.
Qed.

Lemma FindStringSubmatch_eq (s : string) :
  FindStringSubmatch s =
  match matchAt s with
  | Some m => m
  | None =>
      match s with
      | EmptyString => []
      | String _ r => FindStringSubmatch r
      end
  end.
Proof. destruct s; reflexivity. Qed.

Lemma FindStringSubmatch_length (s : string) :
  List.length (FindStringSubmatch s) = 0%nat \/
  List.length (FindStringSubmatch s) = 2%nat.
Proof.
  induction s as [|c r IH].
  - left; reflexivity.
  - rewrite FindStringSubmatch_eq.
    destruct (matchAt (String c r)) eqn:E.
    + right. eapply matchAt_length; eauto.
    + exact IH.
Qed.

(** The slice is nil or has exactly the two entries. *)
Lemma FindStringSubmatch_shape (s : string) :
  FindStringSubmatch s = [] \/
  exists whole ds, FindStringSubmatch s = [whole; ds].
Proof.
  destruct (FindStringSubmatch_length s) as [H|H];
    destruct (FindStringSubmatch s) as [|a [|b [|c l]]]; try discriminate H.
  - left; reflexivity.
  - right; eauto.
Qed.
(** ** Facts about instants *)

Lemma UnixMilli_instant (n : Z) : UnixMilli n = instantOfMillis n.
Proof.
  unfold UnixMilli, Unix, instantOfMillis.
  assert (Hr : - 1000 < Z.rem n 1000 < 1000)
    by (Z.to_euclidean_division_equations; lia).
  assert (Hq0 : Z.quot (Z.rem n 1000 * 1000000) 1000000000 = 0)
    by (apply Z.quot_small_iff; lia).
  destruct (Z.rem n 1000 * 1000000 <? 0) eqn:E1; simpl.
  - rewrite Hq0. simpl. apply Z.ltb_lt in E1.
    replace (Z.rem n 1000 * 1000000 - 0 <? 0) with true
      by (symmetry; apply Z.ltb_lt; lia).
    f_equal; Z.to_euclidean_division_equations; lia.
  - apply Z.ltb_ge in E1.
    replace (1000000000 <=? Z.rem n 1000 * 1000000) with false
      by (symmetry; apply Z.leb_gt; lia).
    f_equal; Z.to_euclidean_division_equations; lia.
Qed.

Lemma Time_UnixMilli_instant (n : Z) : Time_UnixMilli (instantOfMillis n) = n.
Proof.
  unfold Time_UnixMilli, instantOfMillis; simpl.
  replace (Z.quot (n mod 1000 * 1000000) 1000000) with (n mod 1000).
  - Z.to_euclidean_division_equations; lia.
  - symmetry. apply Z.quot_mul. lia.
Qed.

(** ** Facts about digits and [Atoi] *)

Lemma isDigit_digitVal (c : ascii) : isDigit c = true -> 0 <= digitVal c <= 9.
Proof.
  unfold isDigit, digitVal. intros H.
  apply andb_true_iff in H. destruct H as [H1 H2].
  apply Nat.leb_le in H1. apply Nat.leb_le in H2. lia.
Qed.

Lemma digitChar_ok (d : Z) :
  0 <= d < 10 -> isDigit (digitChar d) = true /\ digitVal (digitChar d) = d.
Proof.
  intros H.
  assert (E : d = 0 \/ d = 1 \/ d = 2 \/ d = 3 \/ d = 4 \/ d = 5 \/ d = 6 \/
              d = 7 \/ d = 8 \/ d = 9) by lia.
  repeat (destruct E as [E|E]; [subst d; split; reflexivity|]).
  subst d; split; reflexivity.
Qed.

Lemma parseDigits_value (s : string) (acc : Z) :
  allDigits s = true -> parseDigits s acc = Some (decimalValueFrom s acc).
Proof.
  revert acc. induction s as [|c r IH]; intros acc H; simpl in *.
  - reflexivity.
  - apply andb_true_iff in H. destruct H as [Hc Hr].
    rewrite Hc. apply IH. exact Hr.
Qed.

Lemma decimalValueFrom_nonneg (s : string) (acc : Z) :
  allDigits s = true -> 0 <= acc -> 0 <= decimalValueFrom s acc.
Proof.
  revert acc. induction s as [|c r IH]; intros acc H Hacc; simpl in *.
  - exact Hacc.
  - apply andb_true_iff in H. destruct H as [Hc Hr].
    apply IH; [exact Hr|]. pose proof (isDigit_digitVal c Hc). lia.
Qed.

(** A digit is neither sign. *)
Lemma isDigit_not_sign (c : ascii) :
  isDigit c = true -> c <> "-"%char /\ c <> "+"%char.
Proof.
  intros H. split; intros E; subst c; discriminate H.
Qed.

Lemma Atoi_digits (ds : string) :
  allDigits ds = true -> ds <> EmptyString ->
  Atoi ds =
  if decimalValue ds <=? maxInt then Some (decimalValue ds) else None.
Proof.
  intros Hd Hne. destruct ds as [|c r]; [congruence|].
  pose proof (parseDigits_value _ 0 Hd) as Hp.
  pose proof (decimalValueFrom_nonneg _ 0 Hd ltac:(lia)) as Hnn.
  simpl in Hd. apply andb_true_iff in Hd. destruct Hd as [Hc Hr].
  destruct (isDigit_not_sign c Hc) as [Hm Hpl].
  assert (HA : Atoi (String c r) =
               match parseDigits (String c r) 0 with
               | None => None
               | Some n => if (minInt <=? n) && (n <=? maxInt) then Some n else None
               end).
  { unfold Atoi.
    destruct c as [[] [] [] [] [] [] [] []]; try reflexivity; congruence. }
  rewrite HA, Hp. fold (decimalValue (String c r)) in *.
  replace (minInt <=? decimalValue (String c r)) with true; [reflexivity|].
  symmetry. apply Z.leb_le. unfold minInt. lia.
Qed.

(** ** The matcher on a wrapped digit run *)

#[local] Arguments Ascii.eqb : simpl never.

Lemma append_assoc (a b c : string) :
  ((a ++ b) ++ c)%string = (a ++ b ++ c)%string.
Proof. induction a as [|x a IH]; simpl; [reflexivity | f_equal; exact IH]. Qed.

Lemma append_nil_r (a : string) : (a ++ "")%string = a.
Proof. induction a as [|x a IH]; simpl; [reflexivity | f_equal; exact IH]. Qed.

Lemma spanDigits_run (ds rest : string) (c : ascii) :
  allDigits ds = true -> isDigit c = false ->
  spanDigits (ds ++ String c rest) = (ds, String c rest).
Proof.
  intros Hd Hc. induction ds as [|d r IH]; simpl in *.
  - rewrite Hc. reflexivity.
  - apply andb_true_iff in Hd. destruct Hd as [Hd Hr].
    rewrite Hd, (IH Hr). reflexivity.
Qed.

Lemma spanDigits_fst_digits (s : string) : allDigits (fst (spanDigits s)) = true.
Proof.
  induction s as [|c r IH]; simpl; [reflexivity|].
  destruct (isDigit c) eqn:E; [|reflexivity].
  destruct (spanDigits r) as [ds rest]. simpl in *. rewrite E, IH. reflexivity.
Qed.

Lemma spanDigits_snd_head (s : string) (c : ascii) (tl : string) :
  snd (spanDigits s) = String c tl -> isDigit c = false.
Proof.
  induction s as [|d r IH]; simpl; [discriminate|].
  destruct (isDigit d) eqn:E.
  - destruct (spanDigits r) as [ds rest]. simpl in *. exact IH.
  - simpl. intros H. inversion H. subst. exact E.
Qed.

Lemma spanDigits_split (s : string) :
  s = (fst (spanDigits s) ++ snd (spanDigits s))%string.
Proof.
  induction s as [|c r IH]; simpl; [reflexivity|].
  destruct (isDigit c) eqn:E; [|reflexivity].
  destruct (spanDigits r) as [ds rest]. simpl in *. f_equal. exact IH.
Qed.

Lemma matchAt_wrapped (ds post : string) :
  allDigits ds = true ->
  matchAt ("Date(" ++ ds ++ ")" ++ post) =
  Some [("Date(" ++ ds ++ ")")%string; ds].
Proof.
  intros Hd. unfold matchAt.
  change ("Date(" ++ ds ++ ")" ++ post)%string
    with (String "D" (String "a" (String "t" (String "e" (String "("
            (ds ++ String ")" post)))))).
  cbn [stripPrefix]. rewrite !Ascii.eqb_refl.
  rewrite (spanDigits_run ds post ")" Hd eq_refl). reflexivity.
Qed.

(** Text put after a string in which no match starts at the head cannot
    create one there, as long as the text begins with the byte D: the five
    bytes of the prefix do not overlap themselves, and D neither extends a
    digit run nor closes the parenthesis. *)
Lemma matchAt_extend (p rest : string) :
  p <> EmptyString -> matchAt p = None ->
  matchAt (p ++ String "D" rest) = None.
Proof.
  intros Hne H. unfold matchAt in *.
  destruct p as [|c1 p]; [congruence|]. simpl in *.
  destruct (Ascii.eqb "D" c1) eqn:E1; [|reflexivity].
  destruct p as [|c2 p]; [reflexivity|]. simpl in *.
  destruct (Ascii.eqb "a" c2) eqn:E2; [|reflexivity].
  destruct p as [|c3 p]; [reflexivity|]. simpl in *.
  destruct (Ascii.eqb "t" c3) eqn:E3; [|reflexivity].
  destruct p as [|c4 p]; [reflexivity|]. simpl in *.
  destruct (Ascii.eqb "e" c4) eqn:E4; [|reflexivity].
  destruct p as [|c5 p]; [reflexivity|]. simpl in *.
  destruct (Ascii.eqb "(" c5) eqn:E5; [|reflexivity].
  pose proof (spanDigits_fst_digits p) as Hds.
  pose proof (spanDigits_split p) as Hsp.
  destruct (spanDigits p) as [ds tl] eqn:E. simpl in Hds, Hsp.
  rewrite Hsp, append_assoc.
  destruct tl as [|c tl].
  - simpl. rewrite (spanDigits_run ds rest "D" Hds eq_refl). reflexivity.
  - assert (Hc : isDigit c = false).
    { apply (spanDigits_snd_head p c tl). rewrite E. reflexivity. }
    simpl. rewrite (spanDigits_run ds _ c Hds Hc). exact H.
Qed.

Lemma FindStringSubmatch_nil_matchAt (s : string) :
  FindStringSubmatch s = [] -> matchAt s = None.
Proof.
  rewrite FindStringSubmatch_eq. destruct (matchAt s) as [m|] eqn:E; [|reflexivity].
  intros H. subst m. apply matchAt_length in E. discriminate E.
Qed.

(** The leftmost match: when no match lies in the text before a wrapped
    digit run, the run is what [FindStringSubmatch] finds. *)
Lemma FindStringSubmatch_leftmost (pre ds post : string) :
  allDigits ds = true -> FindStringSubmatch pre = [] ->
  FindStringSubmatch (pre ++ "Date(" ++ ds ++ ")" ++ post) =
  [("Date(" ++ ds ++ ")")%string; ds].
Proof.
  intros Hd. induction pre as [|c r IH]; intros Hpre.
  - rewrite FindStringSubmatch_eq.
    change ("" ++ "Date(" ++ ds ++ ")" ++ post)%string
      with ("Date(" ++ ds ++ ")" ++ post)%string.
    rewrite (matchAt_wrapped ds post Hd). reflexivity.
  - pose proof (FindStringSubmatch_nil_matchAt _ Hpre) as Hm.
    rewrite FindStringSubmatch_eq in Hpre. rewrite Hm in Hpre.
    rewrite FindStringSubmatch_eq.
    change ("Date(" ++ ds ++ ")" ++ post)%string
      with (String "D" ("ate(" ++ ds ++ ")" ++ post)%string).
    rewrite (matchAt_extend (String c r) _ ltac:(discriminate) Hm).
    cbn [append]. apply IH. exact Hpre.
Qed.

(** ** The matcher against what the pattern denotes *)

Lemma stripPrefix_Some (p s r : string) :
  stripPrefix p s = Some r -> s = (p ++ r)%string.
Proof.
  revert s. induction p as [|a p IH]; intros s H; cbn [stripPrefix] in H.
  - inversion H. reflexivity.
  - destruct s as [|b s]; [discriminate|].
    destruct (Ascii.eqb a b) eqn:E; [|discriminate].
    apply Ascii.eqb_eq in E. subst b. cbn [append]. f_equal. apply IH, H.
Qed.

Lemma matchAt_sound (s : string) (m : list string) :
  matchAt s = Some m ->
  exists ds post,
    m = [("Date(" ++ ds ++ ")")%string; ds] /\ occurrence s "" ds post.
Proof.
  unfold matchAt. destruct (stripPrefix "Date(" s) as [r|] eqn:E; [|discriminate].
  apply stripPrefix_Some in E.
  pose proof (spanDigits_fst_digits r) as Hd.
  pose proof (spanDigits_split r) as Hr.
  destruct (spanDigits r) as [ds rest]. cbn [fst snd] in Hd, Hr.
  destruct rest as [|c post]; [discriminate|].
  destruct (Ascii.eqb c ")") eqn:Ec.
  - apply Ascii.eqb_eq in Ec. subst c. intros H. inversion H.
    exists ds, post. split; [reflexivity|]. split; [|exact Hd].
    rewrite E, Hr. reflexivity.
  - intros H. exfalso.
    destruct c as [[] [] [] [] [] [] [] []]; try discriminate H.
    discriminate Ec.
Qed.

Lemma matchAt_complete (s ds post : string) :
  occurrence s "" ds post ->
  matchAt s = Some [("Date(" ++ ds ++ ")")%string; ds].
Proof.
  intros [E Hd]. subst s. apply (matchAt_wrapped ds post Hd).
Qed.

(** No match is found exactly when the pattern occurs nowhere. *)
Lemma FindStringSubmatch_none (s : string) :
  FindStringSubmatch s = [] <->
  (forall pre ds post, ~ occurrence s pre ds post).
Proof.
  induction s as [|c r IH].
  - split; [|reflexivity].
    intros _ pre ds post [E _]. destruct pre; discriminate E.
  - rewrite FindStringSubmatch_eq. split.
    + intros H pre ds post Hocc.
      destruct (matchAt (String c r)) as [m|] eqn:Em.
      * subst m. apply matchAt_length in Em. discriminate Em.
      * destruct pre as [|c' pre].
        -- rewrite (matchAt_complete _ ds post Hocc) in Em. discriminate Em.
        -- destruct Hocc as [E Hd]. cbn [append] in E. inversion E. subst c'.
           apply (proj1 IH H pre ds post). split; [assumption | exact Hd].
    + intros H. destruct (matchAt (String c r)) as [m|] eqn:Em.
      * exfalso. destruct (matchAt_sound _ _ Em) as (ds & post & _ & Hocc).
        exact (H EmptyString ds post Hocc).
      * apply IH. intros pre ds post [E Hd].
        apply (H (String c pre) ds post). split; [|exact Hd].
        cbn [append]. f_equal. exact E.
Qed.

(** A match that is found is an occurrence of the pattern, and no occurrence
    starts before it. *)
Lemma FindStringSubmatch_some (s whole ds : string) :
  FindStringSubmatch s = [whole; ds] ->
  whole = ("Date(" ++ ds ++ ")")%string /\
  exists pre post,
    occurrence s pre ds post /\
    (forall pre' ds' post',
        occurrence s pre' ds' post' ->
        (String.length pre <= String.length pre')%nat).
Proof.
  revert whole ds. induction s as [|c r IH]; intros whole ds H.
  - discriminate H.
  - rewrite FindStringSubmatch_eq in H.
    destruct (matchAt (String c r)) as [m|] eqn:Em.
    + subst m. destruct (matchAt_sound _ _ Em) as (ds0 & post & E & Hocc).
      inversion E. subst. split; [reflexivity|].
      exists ""%string, post. split; [exact Hocc|].
      intros. apply Nat.le_0_l.
    + destruct (IH whole ds H) as (Hw & pre & post & [E Hd] & Hmin).
      split; [exact Hw|].
      exists (String c pre), post. split.
      * split; [|exact Hd]. cbn [append]. f_equal. exact E.
      * intros pre' ds' post' Hocc'. destruct pre' as [|c' pre'].
        -- rewrite (matchAt_complete _ ds' post' Hocc') in Em. discriminate Em.
        -- destruct Hocc' as [E' Hd']. cbn [append] in E'. inversion E'.
           cbn [String.length]. apply le_n_S.
           apply (Hmin pre' ds' post'). split; assumption.
Qed.

(** ** Printing and reading back a decimal number *)

Lemma formatDigits_digits (fuel : nat) (u : Z) (acc : string) :
  0 <= u -> allDigits acc = true -> allDigits (formatDigits fuel u acc) = true.
Proof.
  revert u acc. induction fuel as [|f IH]; intros u acc Hu Hacc;
    cbn [formatDigits].
  - exact Hacc.
  - destruct (u <? 10) eqn:E.
    + apply Z.ltb_lt in E. cbn [allDigits].
      destruct (digitChar_ok u ltac:(lia)) as [H _]. rewrite H. exact Hacc.
    + apply IH.
      * apply Z.div_pos; lia.
      * cbn [allDigits].
        destruct (digitChar_ok (u mod 10)
                    ltac:(apply Z.mod_pos_bound; lia)) as [H _].
        rewrite H. exact Hacc.
Qed.

Lemma formatDigits_nonempty (fuel : nat) (u : Z) (acc : string) :
  formatDigits (S fuel) u acc <> EmptyString.
Proof.
  revert u acc. induction fuel as [|f IH]; intros u acc.
  - cbn [formatDigits]. destruct (u <? 10); discriminate.
  - change (formatDigits (S (S f)) u acc)
      with (if u <? 10 then String (digitChar u) acc
            else formatDigits (S f) (u / 10) (String (digitChar (u mod 10)) acc)).
    destruct (u <? 10); [discriminate | apply IH].
Qed.

Lemma formatDigits_value (fuel : nat) (u : Z) (acc : string) :
  0 <= u < 10 ^ Z.of_nat fuel ->
  decimalValueFrom (formatDigits fuel u acc) 0 = decimalValueFrom acc u.
Proof.
  revert u acc. induction fuel as [|f IH]; intros u acc Hu.
  - cbn [formatDigits]. change (10 ^ Z.of_nat 0) with 1 in Hu.
    assert (u = 0) by lia. subst u. reflexivity.
  - cbn [formatDigits]. destruct (u <? 10) eqn:E.
    + apply Z.ltb_lt in E. cbn [decimalValueFrom].
      destruct (digitChar_ok u ltac:(lia)) as [_ H]. rewrite H.
      f_equal.
    + apply Z.ltb_ge in E. rewrite IH.
      * cbn [decimalValueFrom].
        destruct (digitChar_ok (u mod 10)
                    ltac:(apply Z.mod_pos_bound; lia)) as [_ H].
        rewrite H. f_equal. Z.to_euclidean_division_equations; lia.
      * rewrite Nat2Z.inj_succ, Z.pow_succ_r in Hu by lia.
        split; [apply Z.div_pos; lia|].
        apply Z.div_lt_upper_bound; lia.
Qed.

Lemma Itoa_spec (n : Z) :
  0 <= n <= maxInt ->
  allDigits (Itoa n) = true /\ Itoa n <> EmptyString /\
  decimalValue (Itoa n) = n.
Proof.
  intros Hn. unfold Itoa. repeat split.
  - apply formatDigits_digits; [lia | reflexivity].
  - apply formatDigits_nonempty.
  - unfold decimalValue. rewrite formatDigits_value; [reflexivity|].
    unfold maxInt in Hn. change (10 ^ Z.of_nat 20) with 100000000000000000000.
    change (2 ^ 63 - 1) with 9223372036854775807 in Hn. lia.
Qed.

(** ** The timestamp decoder *)

(** What [convertTimestamp] returns, by the slice the pattern yields. *)
Lemma convertTimestamp_nil (wt : string) :
  FindStringSubmatch wt = [] ->
  convertTimestamp wt = Ret (inr (Errorf "failed to parse timestamp: " wt)).
Proof. intros H. unfold convertTimestamp. rewrite H. reflexivity. Qed.

Lemma convertTimestamp_match (wt whole ds : string) :
  FindStringSubmatch wt = [whole; ds] ->
  convertTimestamp wt =
  match Atoi ds with
  | None => Ret (inr (Errorf "invalid timestamp: " ds))
  | Some timeMillis => Ret (inl (UnixMilli timeMillis))
  end.
Proof. intros H. unfold convertTimestamp. rewrite H. reflexivity. Qed.

Lemma mentions_Errorf (prefix arg : string) : mentions (Errorf prefix arg) arg.
Proof.
  exists prefix, EmptyString. unfold Errorf. rewrite append_nil_r. reflexivity.
Qed.

(** C4: [convertTimestamp] is total and never panics.  For every input it
    returns a timestamp or an error; when the pattern does not yield the
    whole match and its one capture group, the error is "failed to parse
    timestamp: " followed by the raw input; when the captured digits are not
    a valid integer, it is "invalid timestamp: " followed by those digits. *)
Theorem C4_convertTimestamp_total :
  forall wt : string,
    panicked (convertTimestamp wt) = false /\
    ((exists t, convertTimestamp wt = Ret (inl t)) \/
     (exists e, convertTimestamp wt = Ret (inr e))) /\
    (List.length (FindStringSubmatch wt) <> 2%nat ->
     convertTimestamp wt = Ret (inr (Errorf "failed to parse timestamp: " wt)) /\
     mentions (Errorf "failed to parse timestamp: " wt) wt) /\
    (forall whole ds,
        FindStringSubmatch wt = [whole; ds] -> Atoi ds = None ->
        convertTimestamp wt = Ret (inr (Errorf "invalid timestamp: " ds)) /\
        mentions (Errorf "invalid timestamp: " ds) ds).
Proof.
  intros wt.
  destruct (FindStringSubmatch_shape wt) as [H | (whole & ds & H)].
  - rewrite (convertTimestamp_nil wt H). repeat split.
    + right. eexists. reflexivity.
    + apply mentions_Errorf.
    + rewrite H in H0. discriminate H0.
    + apply mentions_Errorf.
  - rewrite (convertTimestamp_match wt whole ds H). repeat split.
    + destruct (Atoi ds); reflexivity.
    + destruct (Atoi ds); [left | right]; eexists; reflexivity.
    + rewrite H in H0. exfalso. apply H0. reflexivity.
    + apply mentions_Errorf.
    + rewrite H in H0. inversion H0. subst. rewrite H1. reflexivity.
    + apply mentions_Errorf.
Qed.

(** The two error branches of C4 are taken: on an input without the wrapper,
    and on an empty and on an out-of-range digit run. *)
Lemma C4_convertTimestamp_total_witness :
  (List.length (FindStringSubmatch "garbage") <> 2%nat /\
   convertTimestamp "garbage" =
   Ret (inr "failed to parse timestamp: garbage"%string)) /\
  (FindStringSubmatch "Date()" = ["Date()"%string; ""%string] /\
   Atoi "" = None /\
   convertTimestamp "Date()" = Ret (inr "invalid timestamp: "%string)) /\
  (Atoi "9223372036854775808" = None /\
   convertTimestamp "Date(9223372036854775808)" =
   Ret (inr "invalid timestamp: 9223372036854775808"%string)).
Proof.
  pose proof (C4_convertTimestamp_total "garbage") as (_ & _ & H1 & _).
  pose proof (C4_convertTimestamp_total "Date()") as (_ & _ & _ & H2).
  pose proof (C4_convertTimestamp_total "Date(9223372036854775808)")
    as (_ & _ & _ & H3).
  split; [|split].
  - split; [discriminate|]. apply H1. discriminate.
  - split; [reflexivity|]. split; [reflexivity|].
    apply (H2 "Date()"%string ""%string); reflexivity.
  - split; [reflexivity|].
    apply (H3 "Date(9223372036854775808)"%string "9223372036854775808"%string);
      reflexivity.
Defined.

(** Decoding a wrapped run of digits, whatever follows the wrapper. *)
Lemma convertTimestamp_wrapped (pre ds post : string) :
  allDigits ds = true -> FindStringSubmatch pre = [] ->
  convertTimestamp (pre ++ "Date(" ++ ds ++ ")" ++ post) =
  match Atoi ds with
  | None => Ret (inr (Errorf "invalid timestamp: " ds))
  | Some timeMillis => Ret (inl (UnixMilli timeMillis))
  end.
Proof.
  intros Hd Hpre. eapply convertTimestamp_match.
  apply FindStringSubmatch_leftmost; assumption.
Qed.

Lemma convertTimestamp_wrapped_ok (pre ds post : string) :
  allDigits ds = true -> FindStringSubmatch pre = [] ->
  ds <> EmptyString -> decimalValue ds <= maxInt ->
  convertTimestamp (pre ++ "Date(" ++ ds ++ ")" ++ post) =
  Ret (inl (instantOfMillis (decimalValue ds))).
Proof.
  intros Hd Hpre Hne Hle.
  rewrite (convertTimestamp_wrapped pre ds post Hd Hpre).
  rewrite (Atoi_digits ds Hd Hne).
  replace (decimalValue ds <=? maxInt) with true
    by (symmetry; apply Z.leb_le; exact Hle).
  rewrite UnixMilli_instant. reflexivity.
Qed.

(** C5: for every well-formed vendor string, the wrapper around a non-empty
    run of decimal digits whose value fits the [int], decoding returns the
    instant that many milliseconds after the Unix epoch.  In particular
    Date(1609459200000) decodes to 2021-01-01T00:00:00Z, and Date(abc) and
    garbage yield a parse error that mentions the input. *)
Theorem C5_decode_wellformed :
  (forall ds : string,
      allDigits ds = true -> ds <> EmptyString -> decimalValue ds <= maxInt ->
      convertTimestamp ("Date(" ++ ds ++ ")") =
      Ret (inl (instantOfMillis (decimalValue ds))) /\
      Time_UnixMilli (instantOfMillis (decimalValue ds)) = decimalValue ds) /\
  convertTimestamp "Date(1609459200000)" =
  Ret (inl (DateUTC 2021 1 1 0 0 0)) /\
  (exists e, convertTimestamp "Date(abc)" = Ret (inr e) /\
             mentions e "Date(abc)" /\ mentions e "abc") /\
  (exists e, convertTimestamp "garbage" = Ret (inr e) /\ mentions e "garbage").
Proof.
  split; [|split; [|split]].
  - intros ds Hd Hne Hle. split.
    + pose proof (convertTimestamp_wrapped_ok "" ds "" Hd eq_refl Hne Hle) as H.
      cbn [append] in H. exact H.
    + apply Time_UnixMilli_instant.
  - reflexivity.
  - exists "failed to parse timestamp: Date(abc)"%string.
    split; [reflexivity|]. split.
    + exists "failed to parse timestamp: "%string, ""%string. reflexivity.
    + exists "failed to parse timestamp: Date("%string, ")"%string. reflexivity.
  - exists "failed to parse timestamp: garbage"%string.
    split; [reflexivity|].
    exists "failed to parse timestamp: "%string, ""%string. reflexivity.
Qed.

Lemma C5_decode_wellformed_witness :
  convertTimestamp "Date(0042)" = Ret (inl (instantOfMillis 42)) /\
  Time_UnixMilli (instantOfMillis 42) = 42.
Proof.
  destruct C5_decode_wellformed as [H _].
  apply (H "0042"%string); [reflexivity | discriminate | discriminate].
Defined.

(** C9: for every [n] from 0 to the largest [int], wrapping the decimal
    digits of [n] as Date(n) and decoding returns exactly the instant [n]
    milliseconds after the Unix epoch, and reading that instant back in
    milliseconds gives [n]. *)
Theorem C9_roundtrip :
  forall n : Z,
    0 <= n <= maxInt ->
    convertTimestamp (wrapDate n) = Ret (inl (instantOfMillis n)) /\
    Time_UnixMilli (instantOfMillis n) = n.
Proof.
  intros n Hn. destruct (Itoa_spec n Hn) as (Hd & Hne & Hv). split.
  - unfold wrapDate.
    pose proof (convertTimestamp_wrapped_ok "" (Itoa n) "" Hd eq_refl Hne) as H.
    rewrite Hv in H. cbn [append] in H. apply H. lia.
  - apply Time_UnixMilli_instant.
Qed.

Lemma C9_roundtrip_witness :
  (0 <= 1609459200123 <= maxInt) /\
  convertTimestamp (wrapDate 1609459200123) =
  Ret (inl (instantOfMillis 1609459200123)) /\
  Time_UnixMilli (instantOfMillis 1609459200123) = 1609459200123.
Proof.
  assert (H : 0 <= 1609459200123 <= maxInt) by (unfold maxInt; lia).
  split; [exact H | exact (C9_roundtrip 1609459200123 H)].
Defined.

(** C10, as stated, fails: a string that contains Date(123) does not decode
    when an earlier occurrence of the pattern has an empty digit run, and a
    non-empty run that exceeds the [int] range does not decode either. *)
Lemma C10_counterexample :
  (exists pre ds post,
      "Date()Date(123)"%string = (pre ++ "Date(" ++ ds ++ ")" ++ post)%string /\
      allDigits ds = true /\ ds <> EmptyString) /\
  convertTimestamp "Date()Date(123)" = Ret (inr "invalid timestamp: "%string) /\
  allDigits "99999999999999999999" = true /\
  convertTimestamp "Date(99999999999999999999)" =
  Ret (inr "invalid timestamp: 99999999999999999999"%string).
Proof.
  split; [|split; [|split]]; try reflexivity.
  exists "Date()"%string, "123"%string, ""%string.
  split; [reflexivity|]. split; [reflexivity | discriminate].
Qed.

(** C10, amended: the pattern is unanchored and decoding looks at its
    leftmost occurrence, whose digit run may be empty, whatever text
    surrounds it.  When no occurrence lies in the text before Date(ds):
    if ds is non-empty and its value fits the [int], decoding succeeds with
    the instant ds names; if ds is empty or too large, decoding fails with
    "invalid timestamp: " followed by ds. *)
Theorem C10_unanchored_leftmost :
  forall pre ds post : string,
    allDigits ds = true -> FindStringSubmatch pre = [] ->
    (ds <> EmptyString -> decimalValue ds <= maxInt ->
     convertTimestamp (pre ++ "Date(" ++ ds ++ ")" ++ post) =
     Ret (inl (instantOfMillis (decimalValue ds)))) /\
    (ds = EmptyString \/ maxInt < decimalValue ds ->
     convertTimestamp (pre ++ "Date(" ++ ds ++ ")" ++ post) =
     Ret (inr (Errorf "invalid timestamp: " ds))).
Proof.
  intros pre ds post Hd Hpre. split.
  - intros Hne Hle. apply convertTimestamp_wrapped_ok; assumption.
  - intros H. rewrite (convertTimestamp_wrapped pre ds post Hd Hpre).
    destruct H as [H | H].
    + subst ds. reflexivity.
    + destruct ds as [|c r] eqn:E; [reflexivity|]. rewrite <- E in *.
      rewrite (Atoi_digits ds Hd) by (subst ds; discriminate).
      replace (decimalValue ds <=? maxInt) with false
        by (symmetry; apply Z.leb_gt; exact H).
      reflexivity.
Qed.

Lemma C10_unanchored_leftmost_witness :
  (allDigits "123" = true /\ FindStringSubmatch "xx" = []) /\
  convertTimestamp "xxDate(123)yy" = Ret (inl (instantOfMillis 123)) /\
  convertTimestamp "xxDate()Date(123)" = Ret (inr "invalid timestamp: "%string).
Proof.
  split; [split; reflexivity|]. split.
  - apply (C10_unanchored_leftmost "xx" "123" "yy" eq_refl eq_refl);
      [discriminate | discriminate].
  - apply (C10_unanchored_leftmost "xx" "" "Date(123)" eq_refl eq_refl).
    left. reflexivity.
Defined.

(** ** Running the requests *)

Section Runs.

Variable net : Net.

Lemma request_run (endPoint : string) (payload : Payload) (t : Target)
    (st : State) :
  request net endPoint payload t st =
  (Ret (match net (log st) (postTo endPoint payload) with
        | Failed err => inr err
        | Replied b => Unmarshal t b
        end),
   mkState (dex st)
     (log st ++ [(postTo endPoint payload,
                  net (log st) (postTo endPoint payload))])).
Proof.
  unfold request, postTo. destruct (net (log st) _); reflexivity.
Qed.

Lemma fetchAccountId_run (st : State) :
  fetchAccountId net st =
  let c := accountCall (dex st) in
  let r := net (log st) c in
  match stringReply r with
  | inl a =>
      (Ret None, mkState (withAccountId (dex st) a) (log st ++ [(c, r)]))
  | inr err => (Ret (Some err), mkState (dex st) (log st ++ [(c, r)]))
  end.
Proof.
  unfold fetchAccountId, bind, getDex. rewrite request_run.
  fold (accountCall (dex st)). cbv zeta. unfold stringReply.
  destruct (net (log st) (accountCall (dex st))) as [err | b];
    [reflexivity|].
  destruct (Unmarshal TString b); reflexivity.
Qed.

Lemma auth_run (st : State) :
  auth net st =
  match accountId (dex st) with
  | None => (Panic nilDeref, st)
  | Some a =>
      let c := sessionCall (dex st) a in
      let r := net (log st) c in
      match stringReply r with
      | inl s =>
          (Ret None, mkState (withSessionId (dex st) s) (log st ++ [(c, r)]))
      | inr err => (Ret (Some err), mkState (dex st) (log st ++ [(c, r)]))
      end
  end.
Proof.
  unfold auth, bind, getDex, deref.
  destruct (accountId (dex st)) as [a|]; [|reflexivity].
  rewrite request_run. fold (sessionCall (dex st) a). cbv zeta.
  unfold stringReply.
  destruct (net (log st) (sessionCall (dex st) a)) as [err | b];
    [reflexivity|].
  destruct (Unmarshal TString b); reflexivity.
Qed.

(** The handshake, case by case. *)
Lemma handshake_cached (st : State) (sid : string) :
  sessionId (dex st) = Some sid -> handshake net st = (Ret tt, st).
Proof. intros H. unfold handshake, bind, getDex. rewrite H. reflexivity. Qed.

Lemma handshake_account_known (st : State) (a : string) :
  sessionId (dex st) = None -> accountId (dex st) = Some a ->
  handshake net st =
  let c := sessionCall (dex st) a in
  let r := net (log st) c in
  match stringReply r with
  | inl s =>
      (Ret tt, mkState (withSessionId (dex st) s) (log st ++ [(c, r)]))
  | inr _ => (Ret tt, mkState (dex st) (log st ++ [(c, r)]))
  end.
Proof.
  intros Hs Ha. unfold handshake, bind, getDex, ret. rewrite Hs, Ha.
  rewrite auth_run, Ha. cbv zeta.
  destruct (stringReply (net (log st) (sessionCall (dex st) a)));
    reflexivity.
Qed.

Lemma handshake_fresh (st : State) :
  sessionId (dex st) = None -> accountId (dex st) = None ->
  handshake net st =
  let c1 := accountCall (dex st) in
  let r1 := net (log st) c1 in
  let l1 := log st ++ [(c1, r1)] in
  match stringReply r1 with
  | inr _ => (Panic nilDeref, mkState (dex st) l1)
  | inl a =>
      let d1 := withAccountId (dex st) a in
      let c2 := sessionCall d1 a in
      let r2 := net l1 c2 in
      match stringReply r2 with
      | inl s => (Ret tt, mkState (withSessionId d1 s) (l1 ++ [(c2, r2)]))
      | inr _ => (Ret tt, mkState d1 (l1 ++ [(c2, r2)]))
      end
  end.
Proof.
  intros Hs Ha. unfold handshake, bind, getDex, ret. rewrite Hs, Ha.
  rewrite fetchAccountId_run. cbv zeta.
  destruct (stringReply (net (log st) (accountCall (dex st)))) as [a | err].
  - rewrite auth_run. cbn [dex log withAccountId accountId].
    destruct (stringReply _); reflexivity.
  - rewrite auth_run. cbn [dex log]. rewrite Ha. reflexivity.
Qed.

(** [GetReadings] after its handshake. *)
Lemma GetReadings_run (minutes numReadings : Z) (st : State) :
  GetReadings net minutes numReadings st =
  match handshake net st with
  | (Panic msg, st1) => (Panic msg, st1)
  | (Ret _, st1) =>
      match sessionId (dex st1) with
      | None => (Panic nilDeref, st1)
      | Some sid =>
          let c := dataCall sid minutes numReadings in
          let r := net (log st1) c in
          let st2 := mkState (dex st1) (log st1 ++ [(c, r)]) in
          match readingsReply r with
          | inr err => (Ret (inr err), st2)
          | inl rawValues => (convertAll rawValues [], st2)
          end
      end
  end.
Proof.
  unfold GetReadings. unfold bind at 1.
  destruct (handshake net st) as [[[]|msg] st1]; [|reflexivity].
  unfold bind, getDex, deref.
  destruct (sessionId (dex st1)) as [sid|]; [|reflexivity].
  rewrite request_run. fold (dataCall sid minutes numReadings). cbv zeta.
  unfold readingsReply, lift, ret.
  destruct (net (log st1) (dataCall sid minutes numReadings)) as [err | b];
    [reflexivity|].
  destruct (Unmarshal TReadings b); reflexivity.
Qed.

End Runs.

Lemma calls_snoc (d : Dexcom) (l : list Entry) (c : Call) (r : Response) :
  calls (mkState d (l ++ [(c, r)])) = (map fst l ++ [c])%list.
Proof. unfold calls. cbn [log]. rewrite map_app. reflexivity. Qed.

(** ** The endpoints of the two login steps *)

(** C1, as stated, fails: the account-id step posts to
    General/AuthenticatePublisherAccount, not to
    General/LoginPublisherAccountById, and the session step posts to
    General/LoginPublisherAccountById. *)
Lemma C1_counterexample :
  calls (snd (fetchAccountId okNet (mkState (New "user" "secret") []))) =
  [postTo "General/AuthenticatePublisherAccount"
     (PVerify (VerifyPayload.mk "user" "secret" dexcomApplicationId))] /\
  calls (snd (fetchAccountId okNet (mkState (New "user" "secret") []))) <>
  [postTo "General/LoginPublisherAccountById"
     (PVerify (VerifyPayload.mk "user" "secret" dexcomApplicationId))] /\
  calls (snd (auth okNet
                (mkState (mkDexcom "user" "secret" (Some "account-1"%string) None)
                         []))) =
  [postTo "General/LoginPublisherAccountById"
     (PAuth (AuthPayload.mk "account-1" "secret" dexcomApplicationId))] /\
  calls (snd (auth okNet
                (mkState (mkDexcom "user" "secret" (Some "account-1"%string) None)
                         []))) <>
  [postTo "General/AuthenticatePublisherAccount"
     (PAuth (AuthPayload.mk "account-1" "secret" dexcomApplicationId))].
Proof.
  split; [reflexivity|]. split; [discriminate|].
  split; [reflexivity | discriminate].
Qed.

(** C1, amended: the AccountId-resolution step sends accountName, password
    and applicationId to General/AuthenticatePublisherAccount, and the
    SessionId-resolution step sends accountId, password and applicationId
    to General/LoginPublisherAccountById.  Each step makes that one call. *)
Theorem C1_login_endpoints :
  forall (net : Net) (st : State),
    calls (snd (fetchAccountId net st)) =
    (calls st ++
     [postTo "General/AuthenticatePublisherAccount"
        (PVerify (VerifyPayload.mk (username (dex st)) (password (dex st))
                                   "d89443d2-327c-4a6f-89e5-496bbb0317db"))])%list /\
    (forall a : string,
        accountId (dex st) = Some a ->
        calls (snd (auth net st)) =
        (calls st ++
         [postTo "General/LoginPublisherAccountById"
            (PAuth (AuthPayload.mk a (password (dex st))
                                   "d89443d2-327c-4a6f-89e5-496bbb0317db"))])%list).
Proof.
  intros net st. split.
  - rewrite fetchAccountId_run. cbv zeta.
    destruct (stringReply _); cbn [snd]; rewrite calls_snoc; reflexivity.
  - intros a Ha. rewrite auth_run, Ha. cbv zeta.
    destruct (stringReply _); cbn [snd]; rewrite calls_snoc; reflexivity.
Qed.

Lemma C1_login_endpoints_witness :
  calls (snd (auth okNet afterPartialFailure)) =
  (calls afterPartialFailure ++
   [postTo "General/LoginPublisherAccountById"
      (PAuth (AuthPayload.mk "account-1" "secret"
                             "d89443d2-327c-4a6f-89e5-496bbb0317db"))])%list.
Proof.
  destruct (C1_login_endpoints okNet afterPartialFailure) as [_ H].
  apply (H "account-1"%string). reflexivity.
Defined.

(** ** A failing account-id request *)

(** C2: on a client with no cached account id and no cached session id,
    when the account-id request fails in the transport, the code does not
    return the failure.  [GetReadings] drops the error [fetchAccountId]
    returns and goes on to [auth], which dereferences the nil [accountId]:
    the call panics.  The account-id call is the only call made. *)
Theorem C2_account_failure_panics :
  forall (net : Net) (st : State) (minutes numReadings : Z) (err : error),
    accountId (dex st) = None -> sessionId (dex st) = None ->
    net (log st) (accountCall (dex st)) = Failed err ->
    GetReadings net minutes numReadings st =
    (Panic nilDeref,
     mkState (dex st) (log st ++ [(accountCall (dex st), Failed err)])).
Proof.
  intros net st minutes numReadings err Ha Hs Hnet.
  rewrite GetReadings_run, (handshake_fresh net st Hs Ha). cbv zeta.
  rewrite Hnet. reflexivity.
Qed.

Lemma C2_account_failure_panics_witness :
  GetReadings (scriptedNet [Failed "dial tcp: timeout"%string]) 10 1 freshState =
  (Panic nilDeref,
   mkState (New "user" "secret")
     [(accountCall (New "user" "secret"), Failed "dial tcp: timeout"%string)]).
Proof.
  apply (C2_account_failure_panics
           (scriptedNet [Failed "dial tcp: timeout"%string]) freshState 10 1
           "dial tcp: timeout"%string); reflexivity.
Defined.

(** ** Which steps of the handshake run *)

(** C3, as stated, fails: after a partial failure the account id is set and
    the session id is not; the next [GetReadings] sends the session request
    and the data request, and no account-id request. *)
Lemma C3_counterexample :
  accountId (dex afterPartialFailure) = Some "account-1"%string /\
  sessionId (dex afterPartialFailure) = None /\
  calls (snd (GetReadings flakyNet 10 1 afterPartialFailure)) =
  (calls afterPartialFailure ++
   [sessionCall (dex afterPartialFailure) "account-1";
    dataCall "session-1" 10 1])%list /\
  filter (isCallTo dexcomAuthEndpoint)
    [sessionCall (dex afterPartialFailure) "account-1";
     dataCall "session-1" 10 1] = [].
Proof. repeat split. Qed.

Lemma isCallTo_sessionCall (d : Dexcom) (a : string) :
  isCallTo dexcomAuthEndpoint (sessionCall d a) = false.
Proof. reflexivity. Qed.

Lemma isCallTo_dataCall (sid : string) (minutes numReadings : Z) :
  isCallTo dexcomAuthEndpoint (dataCall sid minutes numReadings) = false.
Proof. reflexivity. Qed.

(** C3, amended: when [GetReadings] is called with SessionId unset, step 1
    runs only if AccountId is unset as well, and is then the first call
    made.  If AccountId is already set, step 1 is skipped: the first call
    is the session request with the cached AccountId, and no account-id
    request is sent. *)
Theorem C3_step1_only_when_unset :
  forall (net : Net) (st : State) (minutes numReadings : Z),
    sessionId (dex st) = None ->
    exists new : list Call,
      calls (snd (GetReadings net minutes numReadings st)) =
      (calls st ++ new)%list /\
      match accountId (dex st) with
      | None => hd_error new = Some (accountCall (dex st))
      | Some a =>
          hd_error new = Some (sessionCall (dex st) a) /\
          filter (isCallTo dexcomAuthEndpoint) new = []
      end.
Proof.
  intros net st minutes numReadings Hs. rewrite GetReadings_run.
  destruct (accountId (dex st)) as [a|] eqn:Ha.
  - rewrite (handshake_account_known net st a Hs Ha). cbv zeta.
    destruct (stringReply _) as [s | e].
    + cbn [dex log withSessionId sessionId].
      exists [sessionCall (dex st) a; dataCall s minutes numReadings].
      split; [|split; reflexivity].
      destruct (readingsReply _); cbn [snd]; rewrite calls_snoc, map_app;
        rewrite <- app_assoc; reflexivity.
    + cbn [dex log]. rewrite Hs. cbn [snd].
      exists [sessionCall (dex st) a]. rewrite calls_snoc.
      split; [reflexivity | split; reflexivity].
  - rewrite (handshake_fresh net st Hs Ha). cbv zeta.
    destruct (stringReply (net (log st) (accountCall (dex st)))) as [a | e].
    + destruct (stringReply _) as [s | e2].
      * cbn [dex log withSessionId sessionId].
        exists [accountCall (dex st);
                sessionCall (withAccountId (dex st) a) a;
                dataCall s minutes numReadings].
        split; [|reflexivity].
        destruct (readingsReply _); cbn [snd]; rewrite calls_snoc, !map_app;
          rewrite <- !app_assoc; reflexivity.
      * cbn [dex log withAccountId sessionId]. rewrite Hs. cbn [snd].
        exists [accountCall (dex st); sessionCall (withAccountId (dex st) a) a].
        split; [|reflexivity].
        rewrite calls_snoc, map_app, <- app_assoc. reflexivity.
    + cbn [snd]. exists [accountCall (dex st)].
      rewrite calls_snoc. split; reflexivity.
Qed.

Lemma C3_step1_only_when_unset_witness :
  exists new : list Call,
    calls (snd (GetReadings flakyNet 10 1 afterPartialFailure)) =
    (calls afterPartialFailure ++ new)%list /\
    hd_error new = Some (sessionCall (dex afterPartialFailure) "account-1") /\
    filter (isCallTo dexcomAuthEndpoint) new = [].
Proof.
  exact (C3_step1_only_when_unset flakyNet afterPartialFailure 10 1 eq_refl).
Defined.

(** ** Calls made when every request succeeds *)

Lemma AllSucceed_login (net : Net) (l : list Entry) (c : Call) :
  AllSucceed net ->
  (forall p, callPayload c <> PGet p) ->
  exists s, stringReply (net l c) = inl s.
Proof.
  intros H Hc. specialize (H l c). unfold succeeds in H.
  destruct (callPayload c) as [p | p | p].
  - destruct (stringReply (net l c)) as [s|]; [eauto | discriminate].
  - destruct (stringReply (net l c)) as [s|]; [eauto | discriminate].
  - exfalso. apply (Hc p). reflexivity.
Qed.

(** C6: with all requests succeeding, the first [GetReadings] on a fresh
    client makes the account-id call, then the session call, then one data
    call: two login-related calls and one data fetch.  A second
    [GetReadings] on the same instance makes one data call with the cached
    session id and no login-related call. *)
Theorem C6_calls_of_two_reads :
  forall (net : Net) (u p : string) (m1 n1 m2 n2 : Z),
    AllSucceed net ->
    exists (a s : string) (new1 new2 : list Call),
      calls (snd (GetReadings net m1 n1 (mkState (New u p) []))) = new1 /\
      calls (snd (GetReadings net m2 n2
                    (snd (GetReadings net m1 n1 (mkState (New u p) []))))) =
      (new1 ++ new2)%list /\
      new1 = [accountCall (New u p); sessionCall (New u p) a; dataCall s m1 n1] /\
      new2 = [dataCall s m2 n2] /\
      List.length (filter isLoginCall new1) = 2%nat /\
      List.length (filter isDataCall new1) = 1%nat /\
      List.length (filter isLoginCall new2) = 0%nat /\
      List.length (filter isDataCall new2) = 1%nat.
Proof.
  intros net u p m1 n1 m2 n2 Hnet.
  set (st0 := mkState (New u p) []).
  destruct (AllSucceed_login net (log st0) (accountCall (dex st0)) Hnet
              ltac:(discriminate)) as [a Ha].
  set (l1 := (log st0 ++ [(accountCall (dex st0),
                           net (log st0) (accountCall (dex st0)))])%list).
  destruct (AllSucceed_login net l1
              (sessionCall (withAccountId (dex st0) a) a) Hnet
              ltac:(discriminate)) as [s Hs].
  exists a, s, [accountCall (New u p); sessionCall (New u p) a; dataCall s m1 n1],
    [dataCall s m2 n2].
  assert (H1 : exists r,
             snd (GetReadings net m1 n1 st0) =
             mkState (withSessionId (withAccountId (New u p) a) s)
               [(accountCall (New u p), net [] (accountCall (New u p)));
                (sessionCall (New u p) a, net l1 (sessionCall (New u p) a));
                (dataCall s m1 n1, r)]).
  { rewrite GetReadings_run, (handshake_fresh net st0 eq_refl eq_refl).
    cbv zeta. rewrite Ha. fold l1. rewrite Hs.
    cbn [dex log withSessionId sessionId].
    eexists. destruct (readingsReply _); reflexivity. }
  destruct H1 as [r H1]. rewrite H1.
  split; [reflexivity|]. split.
  - rewrite GetReadings_run.
    rewrite (handshake_cached net _ s) by reflexivity.
    cbn [dex withSessionId sessionId log]. cbv zeta.
    destruct (readingsReply _); reflexivity.
  - repeat split.
Qed.

Lemma okNet_AllSucceed : AllSucceed okNet.
Proof.
  intros l c. unfold succeeds, okNet.
  destruct (callPayload c); reflexivity.
Qed.

Lemma C6_calls_of_two_reads_witness :
  exists (a s : string) (new1 new2 : list Call),
    calls (snd (GetReadings okNet 10 1 freshState)) = new1 /\
    calls (snd (GetReadings okNet 30 5
                  (snd (GetReadings okNet 10 1 freshState)))) =
    (new1 ++ new2)%list /\
    new1 = [accountCall (New "user" "secret");
            sessionCall (New "user" "secret") a; dataCall s 10 1] /\
    new2 = [dataCall s 30 5] /\
    List.length (filter isLoginCall new1) = 2%nat /\
    List.length (filter isDataCall new1) = 1%nat /\
    List.length (filter isLoginCall new2) = 0%nat /\
    List.length (filter isDataCall new2) = 1%nat.
Proof.
  exact (C6_calls_of_two_reads okNet "user" "secret" 10 1 30 5 okNet_AllSucceed).
Defined.

(** ** The readings returned *)

Lemma convertAll_decodable (rawValues : list RawReading) :
  Forall decodable rawValues ->
  forall readings : list GlucoseReading,
  exists out : list GlucoseReading,
    convertAll rawValues readings = Ret (inl (readings ++ out)%list) /\
    Forall2 readingOf rawValues out.
Proof.
  induction 1 as [|rv rest [t Ht] Hrest IH]; intros readings.
  - exists []. rewrite app_nil_r. split; [reflexivity | constructor].
  - cbn [convertAll]. rewrite Ht.
    destruct (IH (readings ++ [mkGlucoseReading t (rawValue rv) (rawTrend rv)])%list)
      as (out & Hout & HF).
    exists (mkGlucoseReading t (rawValue rv) (rawTrend rv) :: out).
    split.
    + rewrite Hout, <- app_assoc. reflexivity.
    + constructor; [|exact HF]. repeat split. exact Ht.
Qed.

(** C7: when the handshake (if any) leaves a session id and the data call
    is decoded into a list of raw records whose WT fields all decode,
    [GetReadings] returns, without error, one reading for each raw record,
    in the order of the list, with value and trend copied and the time
    decoded from WT.  An empty list gives the empty sequence. *)
Theorem C7_readings_in_vendor_order :
  forall (net : Net) (st st1 : State) (minutes numReadings : Z)
         (sid : string) (rawValues : list RawReading),
    handshake net st = (Ret tt, st1) ->
    sessionId (dex st1) = Some sid ->
    readingsReply (net (log st1) (dataCall sid minutes numReadings)) =
    inl rawValues ->
    Forall decodable rawValues ->
    exists readings : list GlucoseReading,
      fst (GetReadings net minutes numReadings st) = Ret (inl readings) /\
      Forall2 readingOf rawValues readings /\
      List.length readings = List.length rawValues /\
      (rawValues = [] -> readings = []).
Proof.
  intros net st st1 minutes numReadings sid rawValues Hh Hs Hr Hd.
  rewrite GetReadings_run, Hh, Hs. cbv zeta. rewrite Hr. cbn [fst].
  destruct (convertAll_decodable rawValues Hd []) as (out & Hout & HF).
  exists out. rewrite Hout. split; [reflexivity|]. split; [exact HF|]. split.
  - symmetry. eapply Forall2_length. exact HF.
  - intros E. subst rawValues. inversion HF. reflexivity.
Qed.

Lemma sampleRaw_decodable : Forall decodable sampleRaw.
Proof.
  repeat constructor. exists (DateUTC 2021 1 1 0 0 0). reflexivity.
Qed.

Lemma C7_readings_in_vendor_order_witness :
  exists readings : list GlucoseReading,
    fst (GetReadings okNet 10 1 freshState) = Ret (inl readings) /\
    Forall2 readingOf sampleRaw readings /\
    List.length readings = List.length sampleRaw /\
    (sampleRaw = [] -> readings = []).
Proof.
  exact (C7_readings_in_vendor_order okNet freshState
           (snd (handshake okNet freshState)) 10 1
           "session-1" sampleRaw eq_refl eq_refl eq_refl sampleRaw_decodable).
Defined.

(** The reading of the sample record, and the empty response. *)
Example GetReadings_sample :
  fst (GetReadings okNet 10 1 freshState) =
  Ret (inl [mkGlucoseReading (DateUTC 2021 1 1 0 0 0) 120 "Flat"]).
Proof. reflexivity. Qed.

Example GetReadings_empty :
  fst (GetReadings
         (scriptedNet [Replied (JString "a"); Replied (JString "s");
                       Replied (JReadings [])]) 10 1 freshState) =
  Ret (inl []).
Proof. reflexivity. Qed.

(** ** The life of the two ids *)

Lemma request_steps_one (st1 st2 : State) :
  request_step st1 st2 -> request_steps st1 st2.
Proof. intros H. eapply steps_cons; [exact H | apply steps_nil]. Qed.

Lemma request_steps_trans (st1 st2 st3 : State) :
  request_steps st1 st2 -> request_steps st2 st3 -> request_steps st1 st3.
Proof.
  induction 1 as [|a b c Hab Hbc IH]; intros H; [exact H|].
  eapply steps_cons; [exact Hab | apply IH, H].
Qed.

(** The data request of [GetReadings], from a state with a session id. *)
Lemma data_request_step (net : Net) (st : State) (sid : string)
    (minutes numReadings : Z) :
  sessionId (dex st) = Some sid ->
  request_step st
    (snd (let c := dataCall sid minutes numReadings in
          let r := net (log st) c in
          let st2 := mkState (dex st) (log st ++ [(c, r)]) in
          match readingsReply r with
          | inr err => (Ret (inr err), st2)
          | inl rawValues => (convertAll rawValues [], st2)
          end)).
Proof.
  intros Hs. cbv zeta.
  destruct (readingsReply _); cbn [snd]; apply rs_data; exact Hs.
Qed.

(** Every [GetReadings] is a sequence of at most three requests. *)
Lemma GetReadings_request_steps (net : Net) (minutes numReadings : Z)
    (st : State) :
  request_steps st (snd (GetReadings net minutes numReadings st)).
Proof.
  rewrite GetReadings_run.
  destruct (sessionId (dex st)) as [sid|] eqn:Hs.
  - rewrite (handshake_cached net st sid Hs), Hs.
    apply request_steps_one, data_request_step, Hs.
  - destruct (accountId (dex st)) as [a|] eqn:Ha.
    + rewrite (handshake_account_known net st a Hs Ha). cbv zeta.
      pose proof (rs_session st a (net (log st) (sessionCall (dex st) a)) Ha Hs)
        as Hstep.
      destruct (stringReply (net (log st) (sessionCall (dex st) a))) as [s | e].
      * eapply steps_cons; [exact Hstep|].
        cbn [dex withSessionId sessionId].
        apply request_steps_one.
        apply (data_request_step net
                 (mkState (withSessionId (dex st) s) _) s).
        reflexivity.
      * cbn [dex]. rewrite Hs. cbn [snd]. apply request_steps_one, Hstep.
    + rewrite (handshake_fresh net st Hs Ha). cbv zeta.
      pose proof (rs_account st (net (log st) (accountCall (dex st))) Ha Hs)
        as Hstep1.
      destruct (stringReply (net (log st) (accountCall (dex st)))) as [a | e].
      * eapply steps_cons; [exact Hstep1|].
        set (st1 := mkState (withAccountId (dex st) a) _) in *.
        pose proof (rs_session st1 a
                      (net (log st1) (sessionCall (dex st1) a)) eq_refl Hs)
          as Hstep2.
        cbn [dex log] in Hstep2. fold st1 in Hstep2.
        change (log st ++ [(accountCall (dex st),
                            net (log st) (accountCall (dex st)))])%list
          with (log st1).
        change (withAccountId (dex st) a) with (dex st1).
        destruct (stringReply (net (log st1) (sessionCall (dex st1) a)))
          as [s | e].
        -- eapply steps_cons; [exact Hstep2|].
           cbn [dex withSessionId sessionId].
           apply request_steps_one.
           apply (data_request_step net
                    (mkState (withSessionId (dex st1) s) _) s).
           reflexivity.
        -- cbn [dex]. replace (sessionId (dex st1)) with (@None string).
           cbn [snd]. apply request_steps_one, Hstep2.
      * cbn [snd]. apply request_steps_one, Hstep1.
Qed.

Lemma resolutions_app (endPoint : string) (l1 l2 : list Entry) :
  resolutions endPoint (l1 ++ l2) =
  (resolutions endPoint l1 ++ resolutions endPoint l2)%list.
Proof.
  induction l1 as [|e l1 IH]; cbn [resolutions app]; [reflexivity|].
  destruct (resolvedBy endPoint e); rewrite IH; reflexivity.
Qed.

Lemma resolutions_snoc (endPoint : string) (l : list Entry) (e : Entry) :
  resolutions endPoint (l ++ [e]) =
  (resolutions endPoint l ++ olist (resolvedBy endPoint e))%list.
Proof.
  rewrite resolutions_app. cbn [resolutions].
  destruct (resolvedBy endPoint e); reflexivity.
Qed.

Lemma ordered_nil : ordered [].
Proof. intros l1 e l2 H. destruct l1; discriminate H. Qed.

Lemma ordered_snoc (l : list Entry) (e : Entry) :
  ordered l ->
  (isCallTo dexcomLoginEndpoint (fst e) = true ->
   resolutions dexcomAuthEndpoint l <> []) ->
  (isCallTo dexcomGetLatestEndpoint (fst e) = true ->
   resolutions dexcomLoginEndpoint l <> []) ->
  ordered (l ++ [e]).
Proof.
  intros Hl H1 H2 l1 e' l2 E.
  destruct (exists_last (l := e' :: l2) ltac:(discriminate)) as (l2' & x & El2).
  rewrite El2, app_assoc in E. apply app_inj_tail in E. destruct E as [E Ex].
  subst x. destruct l2' as [|y l2'].
  - cbn in El2. inversion El2. subst e'. rewrite app_nil_r in E. subst l1.
    split; assumption.
  - cbn in El2. inversion El2. subst y.
    apply (Hl l1 e' l2'). exact E.
Qed.

(** The endpoint of each of the three calls. *)
Lemma resolvedBy_accountCall (d : Dexcom) (r : Response) :
  resolvedBy dexcomAuthEndpoint (accountCall d, r) =
  match stringReply r with inl a => Some a | inr _ => None end /\
  resolvedBy dexcomLoginEndpoint (accountCall d, r) = None.
Proof. split; reflexivity. Qed.

Lemma resolvedBy_sessionCall (d : Dexcom) (a : string) (r : Response) :
  resolvedBy dexcomLoginEndpoint (sessionCall d a, r) =
  match stringReply r with inl s => Some s | inr _ => None end /\
  resolvedBy dexcomAuthEndpoint (sessionCall d a, r) = None.
Proof. split; reflexivity. Qed.

Lemma resolvedBy_dataCall (sid : string) (minutes numReadings : Z)
    (r : Response) :
  resolvedBy dexcomAuthEndpoint (dataCall sid minutes numReadings, r) = None /\
  resolvedBy dexcomLoginEndpoint (dataCall sid minutes numReadings, r) = None.
Proof. split; reflexivity. Qed.

Lemma consistent_request_step (st st' : State) :
  request_step st st' -> consistent st -> consistent st'.
Proof.
  intros Hstep (HA & HS & Himp & Hord).
  destruct Hstep as [st r Ha Hs | st a r Ha Hs | st sid minutes numReadings r Hs].
  - destruct (resolvedBy_accountCall (dex st) r) as [E1 E2].
    assert (Ho : ordered (log st ++ [(accountCall (dex st), r)])).
    { apply ordered_snoc; [exact Hord | discriminate | discriminate]. }
    unfold consistent. cbn [log dex].
    rewrite !resolutions_snoc, E1, E2, HA, HS.
    destruct (stringReply r) as [a | e];
      cbn [withAccountId accountId sessionId]; rewrite ?Ha, ?Hs;
      (split; [|split; [|split]]);
      try reflexivity; try exact Ho; congruence.
  - destruct (resolvedBy_sessionCall (dex st) a r) as [E1 E2].
    assert (Ho : ordered (log st ++ [(sessionCall (dex st) a, r)])).
    { apply ordered_snoc; [exact Hord | | discriminate].
      intros _. rewrite HA, Ha. discriminate. }
    unfold consistent. cbn [log dex].
    rewrite !resolutions_snoc, E1, E2, HA, HS.
    destruct (stringReply r) as [s | e];
      cbn [withSessionId accountId sessionId]; rewrite ?Ha, ?Hs;
      (split; [|split; [|split]]);
      try reflexivity; try exact Ho; congruence.
  - destruct (resolvedBy_dataCall sid minutes numReadings r) as [E1 E2].
    unfold consistent. cbn [log dex].
    rewrite !resolutions_snoc, E1, E2, HA, HS. cbn [olist]. rewrite !app_nil_r.
    (split; [|split; [|split]]); [reflexivity | reflexivity | exact Himp |].
    apply ordered_snoc; [exact Hord | discriminate |].
    intros _. rewrite HS, Hs. discriminate.
Qed.

Lemma consistent_request_steps (st st' : State) :
  request_steps st st' -> consistent st -> consistent st'.
Proof.
  induction 1 as [|a b c Hab Hbc IH]; intros H; [exact H|].
  apply IH. eapply consistent_request_step; eauto.
Qed.

(** A request never clears or changes an id that is set. *)
Lemma request_step_keeps (st st' : State) :
  request_step st st' ->
  (forall a, accountId (dex st) = Some a -> accountId (dex st') = Some a) /\
  (forall s, sessionId (dex st) = Some s -> sessionId (dex st') = Some s).
Proof.
  intros Hstep.
  destruct Hstep as [st r Ha Hs | st a r Ha Hs | st sid minutes numReadings r Hs];
    cbn [dex].
  - split; intros x Hx; congruence.
  - split; intros x Hx; [|congruence].
    destruct (stringReply r); cbn; exact Hx.
  - split; intros x Hx; exact Hx.
Qed.

Lemma request_steps_keeps (st st' : State) :
  request_steps st st' ->
  (forall a, accountId (dex st) = Some a -> accountId (dex st') = Some a) /\
  (forall s, sessionId (dex st) = Some s -> sessionId (dex st') = Some s).
Proof.
  induction 1 as [|a b c Hab Hbc IH]; [split; auto|].
  destruct (request_step_keeps a b Hab) as [K1 K2]. destruct IH as [I1 I2].
  split; auto.
Qed.

Lemma reachable_consistent (st : State) : reachable st -> consistent st.
Proof.
  induction 1 as [u p | st st' Hr IH Hstep].
  - (split; [|split; [|split]]); try reflexivity.
    + intros H. exfalso. apply H. reflexivity.
    + apply ordered_nil.
  - destruct Hstep as [net minutes numReadings st].
    eapply consistent_request_steps; [apply GetReadings_request_steps | exact IH].
Qed.

(** C8: in every state a client instance can reach, a session id is set
    only if an account id is; in the log, an account id was resolved before
    every session request and a session id before every data request; each
    id is the token of the one call that resolved it (none while it is
    unset); and a further [GetReadings] leaves an id that is set as it
    is. *)
Theorem C8_credential_lifecycle :
  forall st : State,
    reachable st ->
    (sessionId (dex st) <> None -> accountId (dex st) <> None) /\
    ordered (log st) /\
    resolutions dexcomAuthEndpoint (log st) = olist (accountId (dex st)) /\
    resolutions dexcomLoginEndpoint (log st) = olist (sessionId (dex st)) /\
    (forall st' : State,
        step st st' ->
        (forall a, accountId (dex st) = Some a -> accountId (dex st') = Some a) /\
        (forall s, sessionId (dex st) = Some s -> sessionId (dex st') = Some s)).
Proof.
  intros st Hr.
  destruct (reachable_consistent st Hr) as (HA & HS & Himp & Hord).
  split; [exact Himp|]. split; [exact Hord|]. split; [exact HA|].
  split; [exact HS|].
  intros st' Hstep. destruct Hstep as [net minutes numReadings st].
  apply request_steps_keeps, GetReadings_request_steps.
Qed.

Lemma C8_credential_lifecycle_witness :
  (sessionId (dex afterPartialFailure) <> None ->
   accountId (dex afterPartialFailure) <> None) /\
  ordered (log afterPartialFailure) /\
  resolutions dexcomAuthEndpoint (log afterPartialFailure) =
  olist (accountId (dex afterPartialFailure)) /\
  resolutions dexcomLoginEndpoint (log afterPartialFailure) =
  olist (sessionId (dex afterPartialFailure)) /\
  (forall st' : State,
      step afterPartialFailure st' ->
      (forall a, accountId (dex afterPartialFailure) = Some a ->
                 accountId (dex st') = Some a) /\
      (forall s, sessionId (dex afterPartialFailure) = Some s ->
                 sessionId (dex st') = Some s)).
Proof.
  exact (C8_credential_lifecycle afterPartialFailure
           (reach_step freshState afterPartialFailure
              (reach_New "user" "secret")
              (step_GetReadings flakyNet 10 1 freshState))).
Defined.

(** * Further properties of the code *)

(** ** Outcomes of [GetReadings] *)

Lemma convertTimestamp_no_panic (wt : string) :
  panicked (convertTimestamp wt) = false.
Proof.
  destruct (FindStringSubmatch_shape wt) as [H | (whole & ds & H)].
  - rewrite (convertTimestamp_nil wt H). reflexivity.
  - rewrite (convertTimestamp_match wt whole ds H).
    destruct (Atoi ds); reflexivity.
Qed.

Lemma convertAll_no_panic (rawValues : list RawReading)
    (readings : list GlucoseReading) :
  panicked (convertAll rawValues readings) = false.
Proof.
  revert readings. induction rawValues as [|rv rest IH]; intros readings.
  - reflexivity.
  - cbn [convertAll]. pose proof (convertTimestamp_no_panic (rawTime rv)) as H.
    destruct (convertTimestamp (rawTime rv)) as [[t | e] | msg].
    + apply IH.
    + reflexivity.
    + discriminate H.
Qed.

(** The handshake returns or panics on the nil account id; when it panics
    the session id is still unset. *)
Lemma handshake_outcome (net : Net) (st : State) :
  (fst (handshake net st) = Ret tt) \/
  (fst (handshake net st) = Panic nilDeref /\
   sessionId (dex (snd (handshake net st))) = None).
Proof.
  destruct (sessionId (dex st)) as [sid|] eqn:Hs.
  - left. rewrite (handshake_cached net st sid Hs). reflexivity.
  - destruct (accountId (dex st)) as [a|] eqn:Ha.
    + left. rewrite (handshake_account_known net st a Hs Ha). cbv zeta.
      destruct (stringReply _); reflexivity.
    + rewrite (handshake_fresh net st Hs Ha). cbv zeta.
      destruct (stringReply (net (log st) (accountCall (dex st)))) as [a | e].
      * left. destruct (stringReply _); reflexivity.
      * right. split; [reflexivity | exact Hs].
Qed.

(** X1: [GetReadings] panics exactly when the session id is still unset when
    it ends; whenever a session id is set at its end it has returned, with
    readings or with an error. *)
Theorem GetReadings_panics_iff_no_session :
  forall (net : Net) (minutes numReadings : Z) (st : State),
    panicked (fst (GetReadings net minutes numReadings st)) = true <->
    sessionId (dex (snd (GetReadings net minutes numReadings st))) = None.
Proof.
  intros net minutes numReadings st. rewrite GetReadings_run.
  destruct (handshake_outcome net st) as [H | [H Hn]];
    destruct (handshake net st) as [o st1]; cbn [fst snd] in *; subst o.
  - destruct (sessionId (dex st1)) as [sid|] eqn:Hs.
    + cbv zeta.
      destruct (readingsReply _) as [rvs | e]; cbn [fst snd dex]; rewrite Hs.
      * rewrite convertAll_no_panic. split; discriminate.
      * split; discriminate.
    + cbn [fst snd]. rewrite Hs. split; reflexivity.
  - cbn [fst snd]. rewrite Hn. split; reflexivity.
Qed.

(** X2: when the session id is unset and the session request fails, in the
    transport or in decoding, [GetReadings] panics on the nil session id
    instead of returning the error.  No data request is sent, and an
    account id resolved on the way stays cached.  This holds both with a
    cached account id and with one resolved by the same call. *)
Theorem session_failure_panics :
  forall (net : Net) (st : State) (minutes numReadings : Z),
    sessionId (dex st) = None ->
    (forall a e,
        accountId (dex st) = Some a ->
        stringReply (net (log st) (sessionCall (dex st) a)) = inr e ->
        GetReadings net minutes numReadings st =
        (Panic nilDeref,
         mkState (dex st)
           (log st ++ [(sessionCall (dex st) a,
                        net (log st) (sessionCall (dex st) a))]))) /\
    (forall a e r1,
        accountId (dex st) = None ->
        r1 = net (log st) (accountCall (dex st)) ->
        stringReply r1 = inl a ->
        stringReply (net (log st ++ [(accountCall (dex st), r1)])
                         (sessionCall (dex st) a)) = inr e ->
        GetReadings net minutes numReadings st =
        (Panic nilDeref,
         mkState (withAccountId (dex st) a)
           ((log st ++ [(accountCall (dex st), r1)]) ++
            [(sessionCall (dex st) a,
              net (log st ++ [(accountCall (dex st), r1)])
                  (sessionCall (dex st) a))]))).
Proof.
  intros net st minutes numReadings Hs. split.
  - intros a e Ha He.
    rewrite GetReadings_run, (handshake_account_known net st a Hs Ha).
    cbv zeta. rewrite He. cbn [dex]. rewrite Hs. reflexivity.
  - intros a e r1 Ha Hr1 H1 H2. subst r1.
    rewrite GetReadings_run, (handshake_fresh net st Hs Ha).
    cbv zeta. rewrite H1.
    change (sessionCall (withAccountId (dex st) a) a)
      with (sessionCall (dex st) a).
    rewrite H2. cbn [dex withAccountId sessionId]. rewrite Hs. reflexivity.
Qed.

Lemma session_failure_panics_witness :
  GetReadings flakyNet 10 1 freshState =
  (Panic nilDeref,
   mkState (withAccountId (New "user" "secret") "account-1")
     [(accountCall (New "user" "secret"), Replied (JString "account-1"));
      (sessionCall (New "user" "secret") "account-1",
       Failed "timeout"%string)]).
Proof.
  destruct (session_failure_panics flakyNet freshState 10 1 eq_refl) as [_ H].
  apply (H "account-1"%string "timeout"%string (Replied (JString "account-1")));
    reflexivity.
Defined.

(** X3: with a cached session id [GetReadings] makes exactly one request,
    the data request with that id and with the caller's minutes and count
    as given; it leaves the client as it is and does not panic.  When the
    request fails, in the transport or in decoding, that error is returned
    and no login is attempted. *)
Theorem cached_session_single_request :
  forall (net : Net) (st : State) (minutes numReadings : Z) (sid : string),
    sessionId (dex st) = Some sid ->
    snd (GetReadings net minutes numReadings st) =
    mkState (dex st)
      (log st ++ [(dataCall sid minutes numReadings,
                   net (log st) (dataCall sid minutes numReadings))]) /\
    panicked (fst (GetReadings net minutes numReadings st)) = false /\
    (forall e,
        readingsReply (net (log st) (dataCall sid minutes numReadings)) =
        inr e ->
        fst (GetReadings net minutes numReadings st) = Ret (inr e)).
Proof.
  intros net st minutes numReadings sid Hs.
  rewrite GetReadings_run, (handshake_cached net st sid Hs), Hs. cbv zeta.
  destruct (readingsReply _) as [rvs | e0]; cbn [fst snd].
  - split; [reflexivity|]. split; [apply convertAll_no_panic | discriminate].
  - split; [reflexivity|]. split; [reflexivity|].
    intros e He. inversion He. reflexivity.
Qed.

Lemma cached_session_single_request_witness :
  snd (GetReadings (scriptedNet []) (-5) 0
         (snd (GetReadings okNet 10 1 freshState))) =
  mkState (dex (snd (GetReadings okNet 10 1 freshState)))
    (log (snd (GetReadings okNet 10 1 freshState)) ++
     [(dataCall "session-1" (-5) 0, Failed "connection refused"%string)]) /\
  fst (GetReadings (scriptedNet []) (-5) 0
         (snd (GetReadings okNet 10 1 freshState))) =
  Ret (inr "connection refused"%string).
Proof.
  destruct (cached_session_single_request (scriptedNet []) 
              (snd (GetReadings okNet 10 1 freshState)) (-5) 0
              "session-1"%string eq_refl) as (H1 & _ & H3).
  split; [exact H1 | apply H3; reflexivity].
Defined.

(** ** All readings or none *)

Lemma convertAll_first_error (good : list RawReading) (bad : RawReading)
    (rest : list RawReading) (e : error) :
  Forall decodable good ->
  convertTimestamp (rawTime bad) = Ret (inr e) ->
  forall readings, convertAll (good ++ bad :: rest) readings = Ret (inr e).
Proof.
  intros Hg Hb. induction Hg as [|rv good [t Ht] Hgood IH]; intros readings.
  - cbn [app convertAll]. rewrite Hb. reflexivity.
  - cbn [app convertAll]. rewrite Ht. apply IH.
Qed.

Lemma convertAll_success (rawValues : list RawReading) :
  forall readings out : list GlucoseReading,
    convertAll rawValues readings = Ret (inl out) ->
    exists new, out = (readings ++ new)%list /\ Forall2 readingOf rawValues new.
Proof.
  induction rawValues as [|rv rest IH]; intros readings out H.
  - cbn [convertAll] in H. inversion H. exists [].
    rewrite app_nil_r. split; [reflexivity | constructor].
  - cbn [convertAll] in H.
    destruct (convertTimestamp (rawTime rv)) as [[t | e] | msg] eqn:Ht;
      try discriminate H.
    destruct (IH _ _ H) as (new & Hout & HF).
    exists (mkGlucoseReading t (rawValue rv) (rawTrend rv) :: new). split.
    + rewrite Hout, <- app_assoc. reflexivity.
    + constructor; [|exact HF]. repeat split. exact Ht.
Qed.

(** X4: the readings are all or nothing.  When the data response decodes
    into a list in which some record's WT does not decode, [GetReadings]
    returns the parse error of the first such record and no readings, also
    not those of the records before it. *)
Theorem first_bad_timestamp_aborts :
  forall (net : Net) (st st1 : State) (minutes numReadings : Z) (sid : string)
         (good : list RawReading) (bad : RawReading) (rest : list RawReading)
         (e : error),
    handshake net st = (Ret tt, st1) ->
    sessionId (dex st1) = Some sid ->
    readingsReply (net (log st1) (dataCall sid minutes numReadings)) =
    inl (good ++ bad :: rest)%list ->
    Forall decodable good ->
    convertTimestamp (rawTime bad) = Ret (inr e) ->
    fst (GetReadings net minutes numReadings st) = Ret (inr e).
Proof.
  intros net st st1 minutes numReadings sid good bad rest e Hh Hs Hr Hg Hb.
  rewrite GetReadings_run, Hh, Hs. cbv zeta. rewrite Hr. cbn [fst].
  apply convertAll_first_error; assumption.
Qed.

Lemma first_bad_timestamp_aborts_witness :
  fst (GetReadings
         (scriptedNet [Replied (JString "a"); Replied (JString "s");
                       Replied (JReadings brokenRaw)]) 10 3 freshState) =
  Ret (inr "failed to parse timestamp: garbage"%string).
Proof.
  apply (first_bad_timestamp_aborts
           (scriptedNet [Replied (JString "a"); Replied (JString "s");
                         Replied (JReadings brokenRaw)])
           freshState
           (snd (handshake
                   (scriptedNet [Replied (JString "a"); Replied (JString "s");
                                 Replied (JReadings brokenRaw)]) freshState))
           10 3 "s"%string
           [mkRawReading "Date(1609459200000)" "Flat" 120]
           (mkRawReading "garbage" "Flat" 121)
           [mkRawReading "Date(1609459500000)" "Flat" 122]
           "failed to parse timestamp: garbage"%string);
    try reflexivity.
  repeat constructor. exists (DateUTC 2021 1 1 0 0 0). reflexivity.
Defined.

(** X5: [GetReadings] neither invents nor drops a reading.  Whenever it
    returns readings, its last request was the data request with the cached
    session id, the response decoded into a list of raw records, and the
    readings are those records one for one, in order, with value and trend
    copied and the time decoded from WT. *)
Theorem readings_come_from_response :
  forall (net : Net) (st : State) (minutes numReadings : Z)
         (readings : list GlucoseReading),
    fst (GetReadings net minutes numReadings st) = Ret (inl readings) ->
    exists (sid : string) (l : list Entry) (r : Response)
           (rawValues : list RawReading),
      sessionId (dex (snd (GetReadings net minutes numReadings st))) =
      Some sid /\
      log (snd (GetReadings net minutes numReadings st)) =
      (l ++ [(dataCall sid minutes numReadings, r)])%list /\
      readingsReply r = inl rawValues /\
      Forall2 readingOf rawValues readings.
Proof.
  intros net st minutes numReadings readings. rewrite GetReadings_run.
  destruct (handshake net st) as [[[] | msg] st1]; [|discriminate].
  destruct (sessionId (dex st1)) as [sid|] eqn:Hs; [|discriminate].
  cbv zeta.
  destruct (readingsReply (net (log st1) (dataCall sid minutes numReadings)))
    as [rvs | e] eqn:Hr; cbn [fst snd]; [|discriminate].
  intros H. destruct (convertAll_success rvs [] readings H) as (new & E & HF).
  cbn [app] in E. subst new.
  exists sid, (log st1), (net (log st1) (dataCall sid minutes numReadings)), rvs.
  cbn [dex log]. repeat split; assumption.
Qed.

Lemma readings_come_from_response_witness :
  exists (sid : string) (l : list Entry) (r : Response)
         (rawValues : list RawReading),
    sessionId (dex (snd (GetReadings okNet 10 1 freshState))) = Some sid /\
    log (snd (GetReadings okNet 10 1 freshState)) =
    (l ++ [(dataCall sid 10 1, r)])%list /\
    readingsReply r = inl rawValues /\
    Forall2 readingOf rawValues
      [mkGlucoseReading (DateUTC 2021 1 1 0 0 0) 120 "Flat"].
Proof.
  exact (readings_come_from_response okNet freshState 10 1
           [mkGlucoseReading (DateUTC 2021 1 1 0 0 0) 120 "Flat"] eq_refl).
Defined.

(** ** What a client sends *)

Lemma sentBy_request_step (st st' : State) :
  request_step st st' ->
  Forall (sentBy (dex st)) (calls st) ->
  Forall (sentBy (dex st')) (calls st').
Proof.
  intros Hstep Hall.
  destruct Hstep as [st r Ha Hs | st a r Ha Hs | st sid minutes numReadings r Hs];
    unfold calls in *; cbn [log dex]; rewrite map_app; apply Forall_app; split.
  - eapply Forall_impl; [|exact Hall]. intros c [H | [H | H]].
    + left. rewrite H. destruct (stringReply r); reflexivity.
    + destruct H as (a & Hc & _). congruence.
    + destruct H as (sid & m & n & Hc & _). congruence.
  - constructor; [|constructor]. left.
    destruct (stringReply r); reflexivity.
  - eapply Forall_impl; [|exact Hall]. intros c [H | [H | H]].
    + left. rewrite H. destruct (stringReply r); reflexivity.
    + destruct H as (a' & Hc & E). right. left. exists a'. rewrite E.
      destruct (stringReply r); split; try reflexivity; exact Hc.
    + destruct H as (sid & m & n & Hc & _). congruence.
  - constructor; [|constructor]. right. left. exists a.
    destruct (stringReply r); split; try reflexivity; exact Ha.
  - exact Hall.
  - constructor; [|constructor]. right. right.
    exists sid, minutes, numReadings. split; [exact Hs | reflexivity].
Qed.

Lemma sentBy_request_steps (st st' : State) :
  request_steps st st' ->
  Forall (sentBy (dex st)) (calls st) ->
  Forall (sentBy (dex st')) (calls st').
Proof.
  induction 1 as [|a b c Hab Hbc IH]; intros H; [exact H|].
  apply IH. eapply sentBy_request_step; eauto.
Qed.

Lemma credentials_request_step (st st' : State) :
  request_step st st' ->
  username (dex st') = username (dex st) /\
  password (dex st') = password (dex st).
Proof.
  intros Hstep.
  destruct Hstep as [st r Ha Hs | st a r Ha Hs | st sid minutes numReadings r Hs];
    cbn [dex]; try (destruct (stringReply r)); split; reflexivity.
Qed.

Lemma credentials_request_steps (st st' : State) :
  request_steps st st' ->
  username (dex st') = username (dex st) /\
  password (dex st') = password (dex st).
Proof.
  induction 1 as [|a b c Hab Hbc [IH1 IH2]]; [split; reflexivity|].
  destruct (credentials_request_step a b Hab) as [H1 H2].
  split; congruence.
Qed.

(** X6: in every state a client can reach, each request it ever sent is
    the account-id request with its own user name and password, the
    session request with the account id it has cached, or a data request
    with the session id it has cached: no request carries any other token.
    A further [GetReadings] changes neither the user name nor the
    password. *)
Theorem requests_carry_cached_tokens :
  forall st : State,
    reachable st ->
    Forall (sentBy (dex st)) (calls st) /\
    (forall st' : State,
        step st st' ->
        username (dex st') = username (dex st) /\
        password (dex st') = password (dex st)).
Proof.
  intros st Hr. split.
  - induction Hr as [u p | st st' Hr IH Hstep].
    + constructor.
    + destruct Hstep as [net minutes numReadings st].
      eapply sentBy_request_steps; [apply GetReadings_request_steps | exact IH].
  - intros st' Hstep. destruct Hstep as [net minutes numReadings st].
    apply credentials_request_steps, GetReadings_request_steps.
Qed.

Lemma requests_carry_cached_tokens_witness :
  Forall (sentBy (dex (snd (GetReadings okNet 10 1 freshState))))
    (calls (snd (GetReadings okNet 10 1 freshState))) /\
  (forall st' : State,
      step (snd (GetReadings okNet 10 1 freshState)) st' ->
      username (dex st') = "user"%string /\ password (dex st') = "secret"%string).
Proof.
  exact (requests_carry_cached_tokens (snd (GetReadings okNet 10 1 freshState))
           (reach_step freshState _ (reach_New "user" "secret")
              (step_GetReadings okNet 10 1 freshState))).
Defined.

(** ** More on the timestamp decoder *)

(** X7: [convertTimestamp] reports "failed to parse timestamp: " followed
    by its input exactly when the wrapper around a run of digits, empty or
    not, occurs nowhere in the input. *)
Theorem failed_to_parse_iff_no_occurrence :
  forall wt : string,
    convertTimestamp wt = Ret (inr (Errorf "failed to parse timestamp: " wt)) <->
    (forall pre ds post, ~ occurrence wt pre ds post).
Proof.
  intros wt. rewrite <- FindStringSubmatch_none. split.
  - intros H. destruct (FindStringSubmatch_shape wt) as [E | (whole & ds & E)];
      [exact E|].
    rewrite (convertTimestamp_match wt whole ds E) in H.
    destruct (Atoi ds); discriminate H.
  - apply convertTimestamp_nil.
Qed.

(** X8: a timestamp that [convertTimestamp] returns is never before the
    Unix epoch and is a whole number of milliseconds: it is the instant of
    a non-empty digit run of the input, the leftmost one the pattern finds,
    whose value is at most the largest [int]. *)
Theorem decoded_instant_range :
  forall (wt : string) (t : Time),
    convertTimestamp wt = Ret (inl t) ->
    exists pre ds post,
      occurrence wt pre ds post /\
      (forall pre' ds' post',
          occurrence wt pre' ds' post' ->
          (String.length pre <= String.length pre')%nat) /\
      ds <> EmptyString /\
      0 <= decimalValue ds <= maxInt /\
      t = instantOfMillis (decimalValue ds) /\
      0 <= unixSec t /\ 0 <= nsec t < 1000000000 /\
      nsec t mod 1000000 = 0 /\
      Time_UnixMilli t = decimalValue ds.
Proof.
  intros wt t H.
  destruct (FindStringSubmatch_shape wt) as [E | (whole & ds & E)].
  - rewrite (convertTimestamp_nil wt E) in H. discriminate H.
  - rewrite (convertTimestamp_match wt whole ds E) in H.
    destruct (FindStringSubmatch_some wt whole ds E)
      as (_ & pre & post & Hocc & Hmin).
    pose proof Hocc as [_ Hd].
    assert (Hne : ds <> EmptyString).
    { intros ->. discriminate H. }
    rewrite (Atoi_digits ds Hd Hne) in H.
    destruct (decimalValue ds <=? maxInt) eqn:Hle; [|discriminate H].
    apply Z.leb_le in Hle.
    pose proof (decimalValueFrom_nonneg ds 0 Hd ltac:(lia)) as Hnn.
    fold (decimalValue ds) in Hnn.
    inversion H as [Ht]. rewrite UnixMilli_instant.
    exists pre, ds, post.
    split; [exact Hocc|]. split; [exact Hmin|].
    split; [exact Hne|]. split; [lia|].
    split; [reflexivity|].
    unfold instantOfMillis. cbn [unixSec nsec].
    split; [apply Z.div_pos; lia|].
    pose proof (Z.mod_pos_bound (decimalValue ds) 1000 ltac:(lia)).
    split; [lia|]. split.
    + apply Z.mod_mul. lia.
    + apply Time_UnixMilli_instant.
Qed.

Lemma decoded_instant_range_witness :
  exists pre ds post,
    occurrence "xxDate(0042)yy" pre ds post /\
    (forall pre' ds' post',
        occurrence "xxDate(0042)yy" pre' ds' post' ->
        (String.length pre <= String.length pre')%nat) /\
    ds <> EmptyString /\
    0 <= decimalValue ds <= maxInt /\
    instantOfMillis 42 = instantOfMillis (decimalValue ds) /\
    0 <= unixSec (instantOfMillis 42) /\
    0 <= nsec (instantOfMillis 42) < 1000000000 /\
    nsec (instantOfMillis 42) mod 1000000 = 0 /\
    Time_UnixMilli (instantOfMillis 42) = decimalValue ds.
Proof.
  exact (decoded_instant_range "xxDate(0042)yy" (instantOfMillis 42) eq_refl).
Defined.

(** ** The requests of one read *)


(** X10: a login reply whose body is the JSON null is not an error:
    [json.Unmarshal] leaves the empty string, so the id is set to the
    empty string.  On a client with no id cached, a null reply to the
    account-id request is followed by the session request with the empty
    account id. *)
Theorem null_login_reply_is_empty_token :
  forall (net : Net) (st : State) (minutes numReadings : Z),
    accountId (dex st) = None -> sessionId (dex st) = None ->
    net (log st) (accountCall (dex st)) = Replied JNull ->
    accountId (dex (snd (GetReadings net minutes numReadings st))) =
    Some EmptyString /\
    exists rest : list Call,
      calls (snd (GetReadings net minutes numReadings st)) =
      (calls st ++
       accountCall (dex st) :: sessionCall (dex st) EmptyString :: rest)%list.
Proof.
  intros net st minutes numReadings Ha Hs Hnull.
  rewrite GetReadings_run, (handshake_fresh net st Hs Ha). cbv zeta.
  rewrite Hnull. cbn [stringReply Unmarshal].
  change (sessionCall (withAccountId (dex st) EmptyString) EmptyString)
    with (sessionCall (dex st) EmptyString).
  destruct (stringReply _) as [s | e].
  - cbn [dex log withSessionId sessionId]. cbv zeta.
    destruct (readingsReply _); cbn [snd dex withSessionId withAccountId accountId];
      (split; [reflexivity|]);
      exists [dataCall s minutes numReadings];
      rewrite calls_snoc, !map_app, <- !app_assoc; reflexivity.
  - cbn [dex log withAccountId sessionId]. rewrite Hs.
    cbn [snd dex withAccountId accountId]. split; [reflexivity|].
    exists []. rewrite calls_snoc, map_app, <- app_assoc. reflexivity.
Qed.

Lemma null_login_reply_is_empty_token_witness :
  accountId (dex (snd (GetReadings nullNet 10 1 freshState))) =
  Some EmptyString /\
  exists rest : list Call,
    calls (snd (GetReadings nullNet 10 1 freshState)) =
    (calls freshState ++
     accountCall (dex freshState) ::
     sessionCall (dex freshState) EmptyString :: rest)%list.
Proof.
  exact (null_login_reply_is_empty_token nullNet freshState 10 1
           eq_refl eq_refl eq_refl).
Defined.

(** ** Recovery *)

(** X11: whatever happened before, once every request succeeds
    [GetReadings] returns: from any state of the client, also one left by
    a failed or panicked call, it does not panic, it ends with the session
    id cached, and its last request is the data request with that id. *)
Theorem read_recovers_when_requests_succeed :
  forall (net : Net) (st : State) (minutes numReadings : Z),
    AllSucceed net ->
    panicked (fst (GetReadings net minutes numReadings st)) = false /\
    exists (sid : string) (before : list Call),
      sessionId (dex (snd (GetReadings net minutes numReadings st))) =
      Some sid /\
      calls (snd (GetReadings net minutes numReadings st)) =
      (before ++ [dataCall sid minutes numReadings])%list.
Proof.
  intros net st minutes numReadings Hnet.
  assert (Hfetch : forall st1 sid,
             sessionId (dex st1) = Some sid ->
             let res :=
               (let c := dataCall sid minutes numReadings in
                let r := net (log st1) c in
                let st2 := mkState (dex st1) (log st1 ++ [(c, r)]) in
                match readingsReply r with
                | inr err => (Ret (inr err), st2)
                | inl rawValues => (convertAll rawValues [], st2)
                end) in
             panicked (fst res) = false /\
             sessionId (dex (snd res)) = Some sid /\
             calls (snd res) =
             (calls st1 ++ [dataCall sid minutes numReadings])%list).
  { intros st1 sid Hs. cbv zeta.
    destruct (readingsReply _); cbn [fst snd dex];
      (split; [try apply convertAll_no_panic; reflexivity|]);
      (split; [exact Hs | apply calls_snoc]). }
  rewrite GetReadings_run.
  destruct (sessionId (dex st)) as [sid|] eqn:Hs.
  - rewrite (handshake_cached net st sid Hs), Hs.
    destruct (Hfetch st sid Hs) as (H1 & H2 & H3).
    split; [exact H1|]. exists sid, (calls st). split; assumption.
  - destruct (accountId (dex st)) as [a|] eqn:Ha.
    + rewrite (handshake_account_known net st a Hs Ha). cbv zeta.
      destruct (AllSucceed_login net (log st) (sessionCall (dex st) a) Hnet
                  ltac:(discriminate)) as [s Es].
      rewrite Es. cbn [dex withSessionId sessionId].
      destruct (Hfetch (mkState (withSessionId (dex st) s)
                          (log st ++ [(sessionCall (dex st) a,
                                       net (log st) (sessionCall (dex st) a))]))
                  s eq_refl) as (H1 & H2 & H3).
      split; [exact H1|]. eexists s, _. split; [exact H2 | exact H3].
    + rewrite (handshake_fresh net st Hs Ha). cbv zeta.
      destruct (AllSucceed_login net (log st) (accountCall (dex st)) Hnet
                  ltac:(discriminate)) as [a Ea].
      rewrite Ea.
      destruct (AllSucceed_login net
                  (log st ++ [(accountCall (dex st),
                               net (log st) (accountCall (dex st)))])
                  (sessionCall (withAccountId (dex st) a) a) Hnet
                  ltac:(discriminate)) as [s Es].
      rewrite Es. cbn [dex withSessionId sessionId].
      destruct (Hfetch
                  (mkState (withSessionId (withAccountId (dex st) a) s)
                     ((log st ++ [(accountCall (dex st),
                                   net (log st) (accountCall (dex st)))]) ++
                      [(sessionCall (withAccountId (dex st) a) a,
                        net (log st ++ [(accountCall (dex st),
                                         net (log st) (accountCall (dex st)))])
                            (sessionCall (withAccountId (dex st) a) a))]))
                  s eq_refl) as (H1 & H2 & H3).
      split; [exact H1|]. eexists s, _. split; [exact H2 | exact H3].
Qed.

Lemma read_recovers_when_requests_succeed_witness :
  panicked (fst (GetReadings okNet 10 1 afterPartialFailure)) = false /\
  exists (sid : string) (before : list Call),
    sessionId (dex (snd (GetReadings okNet 10 1 afterPartialFailure))) =
    Some sid /\
    calls (snd (GetReadings okNet 10 1 afterPartialFailure)) =
    (before ++ [dataCall sid 10 1])%list.
Proof.
  exact (read_recovers_when_requests_succeed okNet afterPartialFailure 10 1
           okNet_AllSucceed).
Defined.
